(** * RAG chat service: ingestion and session-scoped conversation

    A shallow embedding of [document_service.py] and [chat_service.py].
    Python [str] values are Rocq strings (the UTF-8 bytes of the text),
    dictionaries keyed by strings are [gmap string _], and every method of
    the two services is a function that threads the service state and
    returns either a value or the exception it raises. *)

From Stdlib Require Import ZArith Lia List String Ascii.
From stdpp Require Import base option list sorting gmap strings pretty.

Import ListNotations.
Local Open Scope Z_scope.

(** ** Python's string helpers used by the services *)

Module PyStr.

(** [p.rfind(c)]: the highest index of the character [c], or [-1]. *)
Fixpoint rfind_from (i : Z) (c : ascii) (p : string) : Z :=
  match p with
  | EmptyString => -1
  | String a rest =>
      let later := rfind_from (i + 1) c rest in
      if 0 <=? later then later
      else if Ascii.eqb a c then i else -1
  end.

Definition rfind (c : ascii) (p : string) : Z := rfind_from 0 c p.

(** [p[:i]] and [p[i:]] for an index [0 <= i]. *)
Definition take (i : Z) (p : string) : string :=
  String.substring 0 (Z.to_nat i) p.

Definition drop (i : Z) (p : string) : string :=
  String.substring (Z.to_nat i) (String.length p - Z.to_nat i) p.

(** [s.encode('utf-8')]: the bytes of the text. *)
Definition encode_utf8 (s : string) : list Byte.byte :=
  String.list_byte_of_string s.

(** The texts of [parts] one after the other. *)
Definition concat (parts : list string) : string :=
  foldr String.append "" parts.

(** Truthiness of a [str]: the empty string is falsy. *)
Definition truthy (s : string) : bool :=
  match s with EmptyString => false | String _ _ => true end.

End PyStr.

(** ** [os.path.splitext] (posixpath: [sep = "/"], no [altsep], [extsep = "."]) *)

Module OsPath.

(** The [while filenameIndex < dotIndex] loop of [genericpath._splitext]:
    [true] as soon as a character that is not a dot precedes the last dot
    inside the file name, [false] when the loop runs out. *)
Fixpoint has_stem (p : string) (filenameIndex : nat) (remaining : nat) : bool :=
  match remaining with
  | O => false
  | S remaining' =>
      match String.get filenameIndex p with
      | Some ch =>
          if Ascii.eqb ch "."%char
          then has_stem p (S filenameIndex) remaining'
          else true
      | None => true
      end
  end.

Definition splitext (p : string) : string * string :=
  let sepIndex := PyStr.rfind "/"%char p in
  let dotIndex := PyStr.rfind "."%char p in
  if (sepIndex <? dotIndex) &&
     has_stem p (Z.to_nat (sepIndex + 1)) (Z.to_nat (dotIndex - (sepIndex + 1)))
  then (PyStr.take dotIndex p, PyStr.drop dotIndex p)
  else (p, "").

End OsPath.

(** ** Exceptions and the effect monad *)

(** The exceptions the services raise or catch.  [RuntimeError] stands for
    any failure raised by an external collaborator (loader, embedding model,
    vector index, language model); [HTTPException] is FastAPI's. *)
Inductive Exception :=
| ValueError (msg : string)
| KeyError (key : string)
| RuntimeError (msg : string)
| HTTPException (status_code : Z) (detail : string).

(** [str(e)]. *)
Definition str (e : Exception) : string :=
  match e with
  | ValueError msg => msg
  | KeyError key => "'" +:+ key +:+ "'"
  | RuntimeError msg => msg
  | HTTPException status_code detail => pretty status_code +:+ ": " +:+ detail
  end.

Inductive result (A : Type) :=
| Ok (value : A)
| Raise (e : Exception).
Arguments Ok {A} value.
Arguments Raise {A} e.

Global Instance result_ret : MRet result := fun A a => Ok a.
Global Instance result_bind : MBind result := fun A B k r =>
  match r with
  | Ok a => k a
  | Raise e => Raise e
  end.

(** A method of an object with state [S]: it returns or raises, and leaves
    the object in a (possibly mutated) state either way. *)
Definition Py (S A : Type) : Type := S -> result A * S.

Global Instance Py_ret {S} : MRet (Py S) := fun A a s => (Ok a, s).
Global Instance Py_bind {S} : MBind (Py S) := fun A B k m s =>
  match m s with
  | (Ok a, s') => k a s'
  | (Raise e, s') => (Raise e, s')
  end.

Definition raise {S A} (e : Exception) : Py S A := fun s => (Raise e, s).

(** [try: body  except Exception as e: handler e]. *)
Definition try_except {S A} (body : Py S A) (handler : Exception -> Py S A) : Py S A :=
  fun s =>
    match body s with
    | (Ok a, s') => (Ok a, s')
    | (Raise e, s') => handler e s'
    end.

(** A pure computation that may raise, run inside a method. *)
Definition lift {S A} (r : result A) : Py S A := fun s => (r, s).

(** ** Documents, messages and the retrieval filter *)

Inductive MetaValue :=
| MStr (s : string)
| MInt (z : Z).

Global Instance MetaValue_eq_dec : EqDecision MetaValue.
Proof. solve_decision. Defined.

(** [langchain.schema.Document]. *)
Record Document := {
  page_content : string;
  metadata : gmap string MetaValue
}.

(** [doc.metadata.update(extra)]: the keys of [extra] win. *)
Definition metadata_update (extra : gmap string MetaValue) (doc : Document) : Document :=
  {| page_content := page_content doc; metadata := extra ∪ metadata doc |}.

(** A Chroma [where] clause of the shape [{field: {"$in": values}}]. *)
Record WhereIn := {
  where_field : string;
  where_in : list MetaValue
}.

(** Whether a chunk's metadata satisfies the clause: the field is present
    and its value is one of the listed ones. *)
Definition where_matches (w : WhereIn) (md : gmap string MetaValue) : bool :=
  match md !! where_field w with
  | Some v => bool_decide (v ∈ where_in w)
  | None => false
  end.

(** The [search_kwargs] of a retriever. *)
Module SearchKwargs.
Record t := {
  k : nat;
  filter : WhereIn
}.
End SearchKwargs.

Inductive BaseMessage :=
| SystemMessage (content : string)
| HumanMessage (content : string)
| AIMessage (content : string).

Inductive Loader :=
| TextLoader (file_path : string)
| PyPDFLoader (file_path : string)
| Docx2txtLoader (file_path : string).

(** The answer stream of the chat model: it either completes, having
    produced at least one fragment (the provider always sends a final
    chunk, possibly with empty content), or breaks off with an error after
    the fragments produced so far. *)
Inductive LLMStream :=
| Completed (first : string) (rest : list string)
| Interrupted (produced : list string) (e : Exception).

(** ** External collaborators

    Everything the two services delegate to libraries: the Chroma vector
    index, the document loaders, the text splitter, the chat model and the
    rendering of a message as text.  The services are verified for every
    implementation of this interface. *)
Class Collaborators := {
  VectorStore : Type;
  (** [Chroma.add_documents(documents, ids)]: embeds and writes; on failure
      the index is left in whatever state the library reached. *)
  add_documents : list Document -> list string -> Py VectorStore unit;
  (** [Chroma.similarity_search(query, k=..., filter=...)]. *)
  similarity_search : VectorStore -> string -> nat -> WhereIn -> result (list Document);
  (** [loader.load()]. *)
  load : Loader -> result (list Document);
  (** [RecursiveCharacterTextSplitter(chunk_size, chunk_overlap).split_text]. *)
  split_text : nat -> nat -> string -> list string;
  (** [ChatGroq]: a single completion, and a streamed one. *)
  llm_invoke : list BaseMessage -> result string;
  llm_stream : list BaseMessage -> LLMStream;
  (** [str(msg)] of a message. *)
  message_str : BaseMessage -> string
}.

(** The contract of the vector index the retrieval scope relies on: a
    search returns at most [k] chunks and only chunks whose metadata
    satisfies the [where] clause. *)
Definition honours_filter {env : Collaborators} : Prop :=
  forall vs query n w docs,
    similarity_search vs query n w = Ok docs ->
    (length docs <= n)%nat /\ Forall (fun d => where_matches w (metadata d) = true) docs.

(** ** document_service.py *)

Definition CHROMA_PATH : string := "chroma".

Module FileInput.
Record t := { file_path : string }.
End FileInput.

Section DocumentService.
Context {env : Collaborators}.

(** The state of a [DocumentService] object that its methods read or
    write: the Chroma collection behind [self.vector_store]. *)
Record DocumentService := {
  vector_store : VectorStore
}.

(** [RecursiveCharacterTextSplitter.split_documents], as the library
    defines it over [split_text]: every chunk of a document's text becomes
    a document with a copy of that document's metadata. *)
Definition split_documents (chunk_size chunk_overlap : nat)
    (documents : list Document) : list Document :=
  doc ← documents;
  (fun chunk => {| page_content := chunk; metadata := metadata doc |})
    <$> split_text chunk_size chunk_overlap (page_content doc).

(** The [if]/[elif] chain of [_process_file]: the loader chosen from the
    extension, or [ValueError]. *)
Definition select_loader (file_path file_extension : string) : result Loader :=
  if String.eqb file_extension ".txt" then Ok (TextLoader file_path)
  else if String.eqb file_extension ".pdf" then Ok (PyPDFLoader file_path)
  else if existsb (String.eqb file_extension) [".doc"; ".docx"]
       then Ok (Docx2txtLoader file_path)
  else Raise (ValueError ("Unsupported file type: " +:+ file_extension)).

Definition _process_file (file_path : string) (metadata : gmap string MetaValue)
    : result (list Document) :=
  let '(_, file_extension) := OsPath.splitext file_path in
  loader ← select_loader file_path file_extension;
  documents ← load loader;
  let documents :=
    if bool_decide (metadata ≠ ∅)
    then metadata_update metadata <$> documents
    else documents in
  let text_splitter := split_documents 1000 200 in
  Ok (text_splitter documents).

Definition save_to_chroma (chunks : list Document) (uuids : list string)
    : Py DocumentService unit :=
  fun self =>
    let '(r, vs) := add_documents chunks uuids (vector_store self) in
    (r, {| vector_store := vs |}).

(** The ids [f"{asset_id}_{i}" for i in range(n)]. *)
Definition chunk_ids (asset_id : string) (n : nat) : list string :=
  (fun i : nat => asset_id +:+ "_" +:+ pretty i) <$> seq 0 n.

(** [process_document]; [uuid4] is the value [str(uuid.uuid4())] draws in
    this call.  The response [{"asset_id": asset_id}] is returned as the
    asset id. *)
Definition process_document (uuid4 : string) (file_input : FileInput.t)
    : Py DocumentService string :=
  try_except
    (let asset_id := uuid4 in
     let metadata : gmap string MetaValue :=
       {[ "asset" := MStr asset_id;
          "source" := MStr (FileInput.file_path file_input) ]} in
     texts ← lift (_process_file (FileInput.file_path file_input) metadata);
     let ids := chunk_ids asset_id (length texts) in
     _ ← save_to_chroma texts ids;
     mret asset_id)
    (fun e => raise (HTTPException 400 (str e))).

End DocumentService.

(** ** chat_service.py: request models, prompts and the pipeline value *)

Module ChatInput.
Record t := { asset_id : string }.
End ChatInput.

Module MessageInput.
Record t := { chat_id : string; message : string }.
End MessageInput.

(** A [ChatPromptTemplate] built by [from_messages]: role templates whose
    text mixes literals and [{variable}] holes, and message placeholders. *)
Inductive TemplatePiece :=
| Lit (text : string)
| Var (name : string).

Inductive PromptPart :=
| system (template : list TemplatePiece)
| human (template : list TemplatePiece)
| MessagesPlaceholder (variable_name : string).

Definition format_template (vars : gmap string string) (template : list TemplatePiece) : string :=
  foldr (fun piece acc =>
           match piece with
           | Lit text => text +:+ acc
           | Var name => default "" (vars !! name) +:+ acc
           end) "" template.

Definition format_messages (prompt : list PromptPart) (vars : gmap string string)
    (placeholders : gmap string (list BaseMessage)) : list BaseMessage :=
  part ← prompt;
  match part with
  | system template => [SystemMessage (format_template vars template)]
  | human template => [HumanMessage (format_template vars template)]
  | MessagesPlaceholder variable_name => default [] (placeholders !! variable_name)
  end.

(** The retriever [vector_store.as_retriever(search_kwargs=...)]. *)
Record Retriever := {
  search_kwargs : SearchKwargs.t
}.

(** The value [setup_rag_chain] returns: a [RunnableWithMessageHistory]
    around the retrieval chain, as the data it is built from.  Its history
    factory is always [self.get_session_history]. *)
Record RagChain := {
  retriever : Retriever;
  contextualize_q_prompt : list PromptPart;
  qa_prompt : list PromptPart;
  input_messages_key : string;
  history_messages_key : string;
  output_messages_key : string
}.

(** One entry of [self.store]: a dictionary with the keys ["asset_id"],
    ["history"] and ["rag_chain"], of which only ["history"] is always
    there.  [history] is the message list of the [ChatMessageHistory]. *)
Record Session := {
  asset_id : option string;
  history : list BaseMessage;
  rag_chain : option RagChain
}.

(** An increment of the pipeline's output stream: a dictionary that may
    carry the keys ["input"], ["chat_history"], ["context"], ["answer"]. *)
Module Chunk.
Record t := {
  input : option string;
  chat_history : option (list BaseMessage);
  context : option (list Document);
  answer : option string
}.

(** [chunk.get(key)] for the keys that hold text. *)
Definition get (key : string) (chunk : t) : option string :=
  if String.eqb key "input" then input chunk
  else if String.eqb key "answer" then answer chunk
  else None.

Definition add_value {A} (plus : A -> A -> A) (x y : option A) : option A :=
  match x, y with
  | Some a, Some b => Some (plus a b)
  | Some a, None => Some a
  | None, y => y
  end.

(** [AddableDict.__add__]: key by key, values present on both sides are
    added (text concatenated, lists appended). *)
Definition add (x y : t) : t :=
  {| input := add_value String.append (input x) (input y);
     chat_history := add_value (@app _) (chat_history x) (chat_history y);
     context := add_value (@app _) (context x) (context y);
     answer := add_value String.append (answer x) (answer y) |}.

(** The final output of a streamed run: the sum of its increments. *)
Definition sum (chunks : list t) : option t :=
  match chunks with
  | [] => None
  | first :: rest => Some (foldl add first rest)
  end.
End Chunk.

Definition newline : string := String (ascii_of_nat 10) EmptyString.

Definition contextualize_q_system_prompt : string :=
  "Given a chat history and the latest user question " +:+
  "which might reference context in the chat history, " +:+
  "formulate a standalone question which can be understood " +:+
  "without the chat history. Do NOT answer the question, " +:+
  "just reformulate it if needed and otherwise return it as is.".

Definition system_prompt : list TemplatePiece :=
  [ Lit ("You are an assistant for question-answering tasks. " +:+
         "Use the following pieces of retrieved context to answer " +:+
         "the question. If you don't know the answer, say that you " +:+
         "don't know. Use three sentences maximum and keep the " +:+
         "answer concise." +:+ newline +:+ newline);
    Var "context" ].

Definition setup_rag_chain (asset_id : string) : RagChain :=
  let retriever :=
    {| search_kwargs :=
         {| SearchKwargs.k := 2;
            SearchKwargs.filter :=
              {| where_field := "asset"; where_in := [MStr asset_id] |} |} |} in
  let contextualize_q_prompt :=
    [ system [Lit contextualize_q_system_prompt];
      MessagesPlaceholder "chat_history";
      human [Var "input"] ] in
  let qa_prompt :=
    [ system system_prompt;
      MessagesPlaceholder "chat_history";
      human [Var "input"] ] in
  {| retriever := retriever;
     contextualize_q_prompt := contextualize_q_prompt;
     qa_prompt := qa_prompt;
     input_messages_key := "input";
     history_messages_key := "chat_history";
     output_messages_key := "answer" |}.

(** ** chat_service.py: the service *)

(** A generator run to exhaustion against an object with state [S]: the
    items it yielded, the exception that ended it (if one did), and the
    state it left. *)
Definition Generator (S A : Type) : Type := S -> list A * option Exception * S.

Section ChatService.
Context {env : Collaborators}.

(** [self.document_service] and [self.store]. *)
Record ChatService := {
  document_service : DocumentService;
  store : gmap string Session
}.

(** [StreamingResponse(generate_response(), media_type=...)]: the
    generator is suspended; nothing of it runs until the response body
    is iterated. *)
Record StreamingResponse := {
  body_iterator : Generator ChatService (list Byte.byte);
  media_type : string
}.

Definition get_session_history (session_id : string)
    : ChatService -> list BaseMessage * ChatService :=
  fun self =>
    match store self !! session_id with
    | None =>
        let fresh := {| asset_id := None; history := []; rag_chain := None |} in
        ([], {| document_service := document_service self;
                store := <[session_id := fresh]> (store self) |})
    | Some session => (history session, self)
    end.

(** [hist.add_messages(messages)] on the history object held under
    [session_id]: the messages are appended in place. *)
Definition add_messages (session_id : string) (messages : list BaseMessage)
    (self : ChatService) : ChatService :=
  {| document_service := document_service self;
     store := alter (fun session =>
                       {| asset_id := asset_id session;
                          history := history session ++ messages;
                          rag_chain := rag_chain session |})
                    session_id (store self) |}.

(** *** The retrieval chain *)

Definition retriever_invoke (r : Retriever) (vs : VectorStore) (query : string)
    : result (list Document) :=
  similarity_search vs query
    (SearchKwargs.k (search_kwargs r)) (SearchKwargs.filter (search_kwargs r)).

(** [create_history_aware_retriever]: with no history the input itself is
    the query; otherwise the chat model rewrites it first. *)
Definition history_aware_retriever (chain : RagChain) (vs : VectorStore)
    (input : string) (chat_history : list BaseMessage) : result (list Document) :=
  match chat_history with
  | [] => retriever_invoke (retriever chain) vs input
  | _ =>
      query ← llm_invoke
                (format_messages (contextualize_q_prompt chain)
                   {[ "input" := input ]}
                   {[ history_messages_key chain := chat_history ]});
      retriever_invoke (retriever chain) vs query
  end.

(** [create_stuff_documents_chain]: the chunks' texts joined by a blank line. *)
Definition stuff_documents (docs : list Document) : string :=
  match docs with
  | [] => ""
  | doc :: more =>
      foldl (fun joined d => joined +:+ newline +:+ newline +:+ page_content d)
            (page_content doc) more
  end.

Definition answer_chunk (fragment : string) : Chunk.t :=
  {| Chunk.input := None; Chunk.chat_history := None;
     Chunk.context := None; Chunk.answer := Some fragment |}.

(** [create_retrieval_chain(...).stream]: the input passes through, the
    retrieved context follows, then the answer fragment by fragment. *)
Definition retrieval_chain_stream (chain : RagChain) (vs : VectorStore)
    (input : string) (chat_history : list BaseMessage)
    : list Chunk.t * option Exception :=
  let passthrough :=
    {| Chunk.input := Some input; Chunk.chat_history := Some chat_history;
       Chunk.context := None; Chunk.answer := None |} in
  match history_aware_retriever chain vs input chat_history with
  | Raise e => ([passthrough], Some e)
  | Ok docs =>
      let retrieved :=
        {| Chunk.input := None; Chunk.chat_history := None;
           Chunk.context := Some docs; Chunk.answer := None |} in
      let prompt :=
        format_messages (qa_prompt chain)
          {[ "input" := input; "context" := stuff_documents docs ]}
          {[ history_messages_key chain := chat_history ]} in
      match llm_stream prompt with
      | Completed first rest =>
          (passthrough :: retrieved :: (answer_chunk <$> first :: rest), None)
      | Interrupted produced e =>
          (passthrough :: retrieved :: (answer_chunk <$> produced), Some e)
      end
  end.

(** [RunnableWithMessageHistory.stream(inputs, config)]: resolve the
    history of [session_id] through [get_session_history], run the chain
    on it, and once the run has completed append the input as a human
    message and the summed output as an assistant message. *)
Definition rag_chain_stream (chain : RagChain) (inputs : Chunk.t) (session_id : string)
    : Generator ChatService Chunk.t :=
  fun self =>
    let '(hist, self) := get_session_history session_id self in
    match Chunk.get (input_messages_key chain) inputs with
    | None => ([], Some (KeyError (input_messages_key chain)), self)
    | Some input =>
        let '(chunks, failure) :=
          retrieval_chain_stream chain (vector_store (document_service self)) input hist in
        match failure with
        | Some e => (chunks, Some e, self)
        | None =>
            match Chunk.sum chunks ≫= Chunk.get (output_messages_key chain) with
            | Some output =>
                (chunks, None,
                 add_messages session_id [HumanMessage input; AIMessage output] self)
            | None => (chunks, None, self)
            end
        end
    end.

(** *** The endpoints *)

(** [start_chat]; [uuid4] is the value [str(uuid.uuid4())] draws in this
    call.  The response [{"chat_id": chat_id}] is returned as the id. *)
Definition start_chat (uuid4 : string) (chat_input : ChatInput.t)
    : Py ChatService string :=
  try_except
    (fun self =>
       let chat_id := uuid4 in
       let session :=
         {| asset_id := Some (ChatInput.asset_id chat_input);
            history := [];
            rag_chain := Some (setup_rag_chain (ChatInput.asset_id chat_input)) |} in
       (Ok chat_id,
        {| document_service := document_service self;
           store := <[chat_id := session]> (store self) |}))
    (fun e => raise (HTTPException 500 ("Failed to start chat: " +:+ str e))).

(** The body of the [for] loop of [stream_generator]. *)
Definition answer_bytes (chunk : Chunk.t) : option (list Byte.byte) :=
  match Chunk.get "answer" chunk with
  | Some answer =>
      if PyStr.truthy answer then Some (PyStr.encode_utf8 answer) else None
  | None => None
  end.

Definition stream_generator (rag_chain : RagChain) (message_input : MessageInput.t)
    : Generator ChatService (list Byte.byte) :=
  fun self =>
    let inputs :=
      {| Chunk.input := Some (MessageInput.message message_input);
         Chunk.chat_history := None; Chunk.context := None; Chunk.answer := None |} in
    let '(chunks, failure, self) :=
      rag_chain_stream rag_chain inputs (MessageInput.chat_id message_input) self in
    (omap answer_bytes chunks,
     (fun e => HTTPException 500 ("Streaming error: " +:+ str e)) <$> failure,
     self).

(** The inner generator of [chat_message]; [chat_data] is the session
    dictionary the handler looked up before building the response. *)
Definition generate_response (chat_data : Session) (message_input : MessageInput.t)
    : Generator ChatService (list Byte.byte) :=
  fun self =>
    let wrap e := HTTPException 500 ("Error generating response: " +:+ str e) in
    match rag_chain chat_data with
    | None => ([], Some (wrap (KeyError "rag_chain")), self)
    | Some chain =>
        let '(fragments, failure, self) := stream_generator chain message_input self in
        (fragments, wrap <$> failure, self)
    end.

Definition chat_message (message_input : MessageInput.t)
    : Py ChatService StreamingResponse :=
  fun self =>
    match store self !! MessageInput.chat_id message_input with
    | None => (Raise (HTTPException 400 "Invalid chat ID"), self)
    | Some chat_data =>
        (Ok {| body_iterator := generate_response chat_data message_input;
               media_type := "text/event-stream" |},
         self)
    end.

(** [chat_history]; the response [{"history": [...]}] is returned as the
    list. *)
Definition chat_history (chat_id : string) : Py ChatService (list string) :=
  fun self =>
    match store self !! chat_id with
    | None => (Raise (HTTPException 400 "Invalid chat ID"), self)
    | Some session =>
        try_except
          (fun self =>
             let history := history session in
             (Ok (message_str <$> history), self))
          (fun e => raise (HTTPException 500
                             ("Error retrieving chat history: " +:+ str e)))
          self
    end.

End ChatService.

(** ** Reachable service states *)

Section Reachability.
Context {env : Collaborators}.

(** A service as [main.py] creates it: an index and no session. *)
Definition initial (vs : VectorStore) : ChatService :=
  {| document_service := {| vector_store := vs |}; store := ∅ |}.

(** The states the HTTP endpoints can drive the service into.  The body
    of a streaming response need not be iterated in the state the response
    was built in: other requests may have been served in between, so it may
    run in any reachable state. *)
Inductive reachable : ChatService -> Prop :=
| reachable_initial vs :
    reachable (initial vs)
| reachable_process uuid4 file_input self r ds :
    reachable self ->
    process_document uuid4 file_input (document_service self) = (r, ds) ->
    reachable {| document_service := ds; store := store self |}
| reachable_start uuid4 chat_input self r self' :
    reachable self ->
    start_chat uuid4 chat_input self = (r, self') ->
    reachable self'
| reachable_history chat_id self r self' :
    reachable self ->
    chat_history chat_id self = (r, self') ->
    reachable self'
| reachable_stream message_input self0 response self1 self out self' :
    reachable self0 ->
    chat_message message_input self0 = (Ok response, self1) ->
    reachable self ->
    body_iterator response self = (out, self') ->
    reachable self'.

(** A session either is bound to an asset and holds the pipeline built
    for that asset, or has neither (an entry made by the history
    resolver). *)
Definition session_wf (session : Session) : Prop :=
  match asset_id session, rag_chain session with
  | Some a, Some chain => chain = setup_rag_chain a
  | None, None => True
  | _, _ => False
  end.

Definition store_wf (self : ChatService) : Prop :=
  forall sid session, store self !! sid = Some session -> session_wf session.

End Reachability.

(** ** A reference implementation of the collaborators

    An in-memory index, a two-file file system and a scripted chat model:
    the services run on it, and it shows that the interface and the filter
    contract can be met. *)

Module Reference.

(** The index: rows of id and chunk, in insertion order. *)
Definition Index : Type := list (string * Document).

Definition upsert (index : Index) (row : string * Document) : Index :=
  if existsb (fun r => String.eqb (fst r) (fst row)) index
  then (fun r => if String.eqb (fst r) (fst row) then row else r) <$> index
  else index ++ [row].

Definition add (documents : list Document) (ids : list string) : Py Index unit :=
  fun index => (Ok tt, foldl upsert index (zip ids documents)).

(** A stand-in for the embedding distance: how far apart the lengths of
    the query and of the chunk are. *)
Definition distance (query : string) (d : Document) : nat :=
  let a := String.length query in
  let b := String.length (page_content d) in
  ((a - b) + (b - a))%nat.

Definition closer (query : string) (a b : Document) : Prop :=
  (distance query a <= distance query b)%nat.

Global Instance closer_dec query a b : Decision (closer query a b).
Proof. unfold closer. apply _. Defined.

Definition search (index : Index) (query : string) (n : nat) (w : WhereIn)
    : result (list Document) :=
  let candidates := List.filter (fun d => where_matches w (metadata d)) (snd <$> index) in
  Ok (take n (merge_sort (closer query) candidates)).

Definition hello : string := "hello world, this is a test document.".

Definition read (loader : Loader) : result (list Document) :=
  match loader with
  | TextLoader path =>
      if String.eqb path "hello.txt"
      then Ok [ {| page_content := hello;
                   metadata := {[ "source" := MStr path ]} |} ]
      else Raise (RuntimeError ("Error loading " +:+ path))
  | PyPDFLoader path =>
      if String.eqb path "paper.pdf"
      then Ok [ {| page_content := "Page one.";
                   metadata := {[ "source" := MStr path; "page" := MInt 0 ]} |};
                {| page_content := "Page two.";
                   metadata := {[ "source" := MStr path; "page" := MInt 1 ]} |} ]
      else Raise (RuntimeError ("Error loading " +:+ path))
  | Docx2txtLoader path => Raise (RuntimeError ("Error loading " +:+ path))
  end.

(** Texts that fit one chunk are kept whole; the empty text has no chunk. *)
Definition split (chunk_size chunk_overlap : nat) (text : string) : list string :=
  match text with
  | EmptyString => []
  | _ => [text]
  end.

Definition role_and_content (msg : BaseMessage) : string :=
  match msg with
  | SystemMessage content => "system: " +:+ content
  | HumanMessage content => "human: " +:+ content
  | AIMessage content => "ai: " +:+ content
  end.

Definition content_of (msg : BaseMessage) : string :=
  match msg with
  | SystemMessage content | HumanMessage content | AIMessage content => content
  end.

(** The chat model rewrites a question to itself and streams [reply]. *)
Definition collaborators (reply : LLMStream) : Collaborators :=
  {| VectorStore := Index;
     add_documents := add;
     similarity_search := search;
     load := read;
     split_text := split;
     llm_invoke := fun prompt => Ok (default "" (content_of <$> last prompt));
     llm_stream := fun _ => reply;
     message_str := role_and_content |}.

Definition chunk (asset text : string) : Document :=
  {| page_content := text;
     metadata := {[ "asset" := MStr asset; "source" := MStr "seed.txt" ]} |}.

(** An index seeded with near-duplicate chunks under two asset ids. *)
Definition seeded : Index :=
  [ ("A_0", chunk "A" "the quick brown fox");
    ("B_0", chunk "B" "the quick brown fox");
    ("B_1", chunk "B" "the quick brown fix");
    ("A_1", chunk "A" "a much longer passage about something else entirely");
    ("B_2", chunk "B" "the quick brown fax") ].

Definition talkative : Collaborators :=
  collaborators (Completed "" ["The document "; ""; "says hello."]).

(** A chat model whose answer is empty. *)
Definition silent : Collaborators :=
  collaborators (Completed "" []).

End Reference.

(** ** Vocabulary of the ingestion properties *)

Section IngestionVocabulary.
Context {env : Collaborators}.

(** The extensions [_process_file] has a loader for. *)
Definition supported_extensions : list string := [".txt"; ".pdf"; ".doc"; ".docx"].

(** The metadata [process_document] attaches to every unit it loads. *)
Definition asset_metadata (asset_id file_path : string) : gmap string MetaValue :=
  {[ "asset" := MStr asset_id; "source" := MStr file_path ]}.

(** An upstream failure of an ingestion: the loader fails on a file of
    a supported type, or the index write (embedding included) fails on
    the chunks.  It carries the exception raised and the state the index
    is left in. *)
Inductive upstream_failure (uuid4 : string) (file_input : FileInput.t) (ds : DocumentService)
    : Exception -> DocumentService -> Prop :=
| loader_failure loader cause :
    select_loader (FileInput.file_path file_input)
      (snd (OsPath.splitext (FileInput.file_path file_input))) = Ok loader ->
    load loader = Raise cause ->
    upstream_failure uuid4 file_input ds cause ds
| index_failure texts cause vs :
    _process_file (FileInput.file_path file_input)
      (asset_metadata uuid4 (FileInput.file_path file_input)) = Ok texts ->
    add_documents texts (chunk_ids uuid4 (length texts)) (vector_store ds)
      = (Raise cause, vs) ->
    upstream_failure uuid4 file_input ds cause {| vector_store := vs |}.

(** What the claim asks of a response to a failed ingestion. *)
Definition reported_5xx (r : result string) : Prop :=
  exists status_code detail,
    r = Raise (HTTPException status_code detail) /\ 500 <= status_code <= 599.

End IngestionVocabulary.

(** ** Sample states on the reference collaborators *)

Module Demo.

Definition question : MessageInput.t :=
  {| MessageInput.chat_id := "chat-1";
     MessageInput.message := "what does the document say?" |}.

(** A service over the seeded index with one session bound to asset A. *)
Definition started (env : Collaborators) (vs : VectorStore) : ChatService :=
  snd (start_chat "chat-1" {| ChatInput.asset_id := "A" |} (initial vs)).

Definition talkative : @ChatService Reference.talkative :=
  started Reference.talkative Reference.seeded.

Definition silent : @ChatService Reference.silent :=
  started Reference.silent Reference.seeded.

Definition documents : @DocumentService Reference.talkative :=
  @Build_DocumentService Reference.talkative Reference.seeded.

(** The session start-session stored under "chat-1". *)
Definition session : Session :=
  {| asset_id := Some "A"; history := []; rag_chain := Some (setup_rag_chain "A") |}.

(** The response to [question], and the state once its body has been
    iterated to the end. *)
Definition response (env : Collaborators) : StreamingResponse :=
  {| body_iterator := generate_response session question;
     media_type := "text/event-stream" |}.

Definition answered : @ChatService Reference.talkative :=
  snd (body_iterator (response Reference.talkative) talkative).

Definition answered_session : Session :=
  {| asset_id := Some "A";
     history := [ HumanMessage "what does the document say?";
                  AIMessage "The document says hello." ];
     rag_chain := Some (setup_rag_chain "A") |}.

Definition unanswered : @ChatService Reference.silent :=
  snd (body_iterator (response Reference.silent) silent).

Definition csv : FileInput.t := {| FileInput.file_path := "table.csv" |}.
Definition pdf : FileInput.t := {| FileInput.file_path := "paper.pdf" |}.
Definition missing : FileInput.t := {| FileInput.file_path := "missing.txt" |}.

End Demo.

(** ** Vocabulary of the path and history properties *)

(** Whether the character [c] occurs in [s]. *)
Fixpoint occurs (c : ascii) (s : string) : bool :=
  match s with
  | EmptyString => false
  | String a rest => Ascii.eqb a c || occurs c rest
  end.

(** A history made of complete exchanges only: a human turn, then an
    assistant turn, any number of times. *)
Fixpoint paired (turns : list BaseMessage) : bool :=
  match turns with
  | [] => true
  | HumanMessage _ :: later =>
      match later with
      | AIMessage _ :: rest => paired rest
      | _ => false
      end
  | _ => false
  end.

(** A chat model that breaks off after one fragment, and a service with
    one session over it. *)
Definition interrupted : Collaborators :=
  Reference.collaborators (Interrupted ["The doc"] (RuntimeError "upstream timeout")).

Definition interrupted_service : @ChatService interrupted :=
  Demo.started interrupted Reference.seeded.

(** * Properties *)

Example splitext_pdf : OsPath.splitext "./data/a2.pdf" = ("./data/a2", ".pdf").
Proof. reflexivity. Qed.

Example splitext_hidden : OsPath.splitext "dir.d/.bashrc" = ("dir.d/.bashrc", "").
Proof. reflexivity. Qed.

Example splitext_double : OsPath.splitext "notes.tar.gz" = ("notes.tar", ".gz").
Proof. reflexivity. Qed.

Example splitext_none : OsPath.splitext "a.b/readme" = ("a.b/readme", "").
Proof. reflexivity. Qed.

(** ** The session store *)

Section StoreProperties.
Context {env : Collaborators}.

Implicit Types (self : ChatService) (session : Session).

Lemma get_session_history_known self sid session :
  store self !! sid = Some session ->
  get_session_history sid self = (history session, self).
Proof. intros Hsid. unfold get_session_history. by rewrite Hsid. Qed.

Lemma get_session_history_unknown self sid :
  store self !! sid = None ->
  get_session_history sid self =
    ([], {| document_service := document_service self;
            store := <[sid := {| asset_id := None; history := []; rag_chain := None |}]>
                       (store self) |}).
Proof. intros Hsid. unfold get_session_history. by rewrite Hsid. Qed.

(** C9.  The history resolver never fails.  For an id that is in the store
    it returns that session's history and leaves the store alone.  For an
    id that is absent it inserts, under that id, a record holding only an
    empty history (no bound asset, no pipeline), returns the empty
    history, and leaves every other entry as it was; so the store then
    holds an entry that start-session did not create. *)
Theorem get_session_history_resolves self sid :
  let '(hist, self') := get_session_history sid self in
  document_service self' = document_service self /\
  (forall other, other <> sid -> store self' !! other = store self !! other) /\
  match store self !! sid with
  | Some session => hist = history session /\ self' = self
  | None =>
      hist = [] /\
      store self' !! sid =
        Some {| asset_id := None; history := []; rag_chain := None |} /\
      sid ∈ dom (store self') /\
      forall uuid4 chat_input, snd (start_chat uuid4 chat_input self) <> self'
  end.
Proof.
  destruct (store self !! sid) as [session|] eqn:Hsid.
  - rewrite (get_session_history_known _ _ _ Hsid). by destruct self.
  - rewrite (get_session_history_unknown _ _ Hsid). cbn.
    split; [done|]. split; [by intros other Hne; rewrite lookup_insert_ne|].
    split; [done|]. split; [by rewrite lookup_insert_eq|].
    split; [rewrite elem_of_dom, lookup_insert_eq; by eexists|].
    intros uuid4 chat_input Heq.
    apply (f_equal (fun s => store s !! sid)) in Heq. cbn in Heq.
    rewrite lookup_insert_eq in Heq.
    destruct (decide (uuid4 = sid)) as [->|Hne].
    + by rewrite lookup_insert_eq in Heq.
    + rewrite lookup_insert_ne in Heq by done. congruence.
Qed.

(** C10.  Reading the history of a known chat id returns the rendered
    turns and leaves the service state exactly as it was: the same
    session ids, and for each of them the same asset id, turn sequence
    and pipeline. *)
Theorem chat_history_read_only self chat_id session :
  store self !! chat_id = Some session ->
  chat_history chat_id self = (Ok (message_str <$> history session), self).
Proof. intros Hsid. unfold chat_history. by rewrite Hsid. Qed.

(** C8.  Start-session succeeds for every asset id: it returns the
    generated id and stores under it a record with that asset id, an
    empty history and the pipeline built for that asset id, whose
    retriever filters on that id alone.  The vector index is neither
    consulted nor changed: the outcome is the same over every index. *)
Theorem start_chat_stores_session uuid4 chat_input self :
  let a := ChatInput.asset_id chat_input in
  let session :=
    {| asset_id := Some a; history := []; rag_chain := Some (setup_rag_chain a) |} in
  start_chat uuid4 chat_input self =
    (Ok uuid4, {| document_service := document_service self;
                  store := <[uuid4 := session]> (store self) |}) /\
  store (snd (start_chat uuid4 chat_input self)) !! uuid4 = Some session /\
  where_in (SearchKwargs.filter (search_kwargs (retriever (setup_rag_chain a)))) = [MStr a] /\
  forall ds,
    let other := {| document_service := ds; store := store self |} in
    fst (start_chat uuid4 chat_input other) = Ok uuid4 /\
    store (snd (start_chat uuid4 chat_input other)) = <[uuid4 := session]> (store self).
Proof.
  cbn. split; [done|]. split; [by rewrite lookup_insert_eq|]. done.
Qed.

(** C4.  The message and history operations succeed only for an id that
    is in the session store, and they do succeed for every such id,
    whatever the session holds: the message operation returns the
    streaming response built from the stored session and the history
    operation returns its rendered turns, the state untouched.  An id
    returned by start-session is such an id.  For any other string both
    fail with the client error 400 "Invalid chat ID", with no streaming
    response built (so no pipeline run) and the service state untouched. *)
Theorem unknown_session_rejected self s :
  (forall msg response self',
      chat_message {| MessageInput.chat_id := s; MessageInput.message := msg |} self
        = (Ok response, self') -> s ∈ dom (store self)) /\
  (forall rendered self',
      chat_history s self = (Ok rendered, self') -> s ∈ dom (store self)) /\
  (s ∈ dom (store self) ->
     exists session,
       store self !! s = Some session /\
       (forall msg,
          chat_message {| MessageInput.chat_id := s; MessageInput.message := msg |} self
            = (Ok {| body_iterator :=
                       generate_response session
                         {| MessageInput.chat_id := s; MessageInput.message := msg |};
                     media_type := "text/event-stream" |}, self)) /\
       chat_history s self = (Ok (message_str <$> history session), self)) /\
  (forall uuid4 chat_input self0,
      start_chat uuid4 chat_input self0 = (Ok s, self) ->
      (forall msg, exists response,
          chat_message {| MessageInput.chat_id := s; MessageInput.message := msg |} self
            = (Ok response, self)) /\
      exists rendered, chat_history s self = (Ok rendered, self)) /\
  (s ∉ dom (store self) ->
     (forall msg,
        chat_message {| MessageInput.chat_id := s; MessageInput.message := msg |} self
          = (Raise (HTTPException 400 "Invalid chat ID"), self)) /\
     chat_history s self = (Raise (HTTPException 400 "Invalid chat ID"), self)).
Proof.
  unfold chat_message, chat_history. cbn.
  split; [|split; [|split; [|split]]].
  - intros msg response self'. rewrite elem_of_dom.
    destruct (store self !! s); [by eexists | discriminate].
  - intros rendered self'. rewrite elem_of_dom.
    destruct (store self !! s); [by eexists | discriminate].
  - intros [session Hknown]%elem_of_dom. exists session. by rewrite Hknown.
  - intros uuid4 chat_input self0 Hstart. injection Hstart as <- <-. cbn.
    rewrite lookup_insert_eq. split; [intros msg|]; by eexists.
  - intros Hunknown. apply not_elem_of_dom in Hunknown. by rewrite Hunknown.
Qed.

End StoreProperties.

(** ** Ingestion *)

Section IngestionProperties.
Context {env : Collaborators}.

Implicit Types (ds : DocumentService) (file_input : FileInput.t).

(** The three ways a call of [process_document] can end. *)
Lemma process_document_unfold uuid4 file_input ds :
  let path := FileInput.file_path file_input in
  process_document uuid4 file_input ds =
    match _process_file path (asset_metadata uuid4 path) with
    | Raise e => (Raise (HTTPException 400 (str e)), ds)
    | Ok texts =>
        match add_documents texts (chunk_ids uuid4 (length texts)) (vector_store ds) with
        | (Ok _, vs) => (Ok uuid4, {| vector_store := vs |})
        | (Raise e, vs) => (Raise (HTTPException 400 (str e)), {| vector_store := vs |})
        end
    end.
Proof.
  cbn. unfold process_document, try_except, lift, mbind, Py_bind, save_to_chroma,
    asset_metadata.
  destruct (_process_file _ _) as [texts|e]; [|done].
  by destruct (add_documents _ _ _) as [[[]|e] vs].
Qed.

Lemma select_loader_unsupported file_path ext :
  ext ∉ supported_extensions ->
  select_loader file_path ext = Raise (ValueError ("Unsupported file type: " +:+ ext)).
Proof.
  unfold supported_extensions, select_loader. intros Hext.
  rewrite !not_elem_of_cons in Hext. destruct Hext as (H1 & H2 & H3 & H4 & _).
  apply String.eqb_neq in H1, H2, H3, H4. cbn. by rewrite H1, H2, H3, H4.
Qed.

(** C5.  When the extension of the path is none of .txt, .pdf, .doc,
    .docx, document-process fails with the unsupported-type error (status
    400, "Unsupported file type: <extension>") and the vector index is
    left exactly as it was. *)
Theorem unsupported_extension_rejected uuid4 file_input ds :
  let ext := snd (OsPath.splitext (FileInput.file_path file_input)) in
  ext ∉ supported_extensions ->
  process_document uuid4 file_input ds =
    (Raise (HTTPException 400 ("Unsupported file type: " +:+ ext)), ds).
Proof.
  cbn. intros Hext. rewrite process_document_unfold. cbn.
  unfold _process_file.
  destruct (OsPath.splitext _) as [root ext]. cbn in Hext.
  by rewrite (select_loader_unsupported _ _ Hext).
Qed.

Lemma _process_file_metadata file_path md texts :
  md <> ∅ ->
  _process_file file_path md = Ok texts ->
  forall d key v, d ∈ texts -> md !! key = Some v -> metadata d !! key = Some v.
Proof.
  intros Hmd. unfold _process_file.
  destruct (OsPath.splitext file_path) as [root ext].
  destruct (select_loader file_path ext) as [loader|e]; [cbn|done].
  destruct (load loader) as [documents|e]; [cbn|done].
  rewrite bool_decide_eq_true_2 by done.
  intros [= <-] d key v Hd Hkey.
  unfold split_documents in Hd.
  apply list_elem_of_bind in Hd as (doc & Hd & Hdoc).
  apply list_elem_of_fmap in Hd as (chunk & -> & _).
  apply list_elem_of_fmap in Hdoc as (loaded & -> & _). cbn.
  by apply lookup_union_Some_l.
Qed.

Lemma asset_metadata_lookup asset_id file_path :
  asset_metadata asset_id file_path <> ∅ /\
  asset_metadata asset_id file_path !! "asset" = Some (MStr asset_id) /\
  asset_metadata asset_id file_path !! "source" = Some (MStr file_path).
Proof.
  unfold asset_metadata. split; [|split].
  - apply insert_non_empty.
  - by rewrite lookup_insert_eq.
  - rewrite lookup_insert_ne by done. by rewrite lookup_singleton_eq.
Qed.

Lemma chunk_ids_length asset_id n : length (chunk_ids asset_id n) = n.
Proof. unfold chunk_ids. by rewrite length_fmap, length_seq. Qed.

Lemma chunk_ids_lookup asset_id n (i : nat) :
  (i < n)%nat -> chunk_ids asset_id n !! i = Some (asset_id +:+ "_" +:+ pretty i).
Proof.
  intros Hi. unfold chunk_ids. by rewrite list_lookup_fmap, lookup_seq_lt.
Qed.

Lemma chunk_ids_NoDup asset_id n : NoDup (chunk_ids asset_id n).
Proof.
  unfold chunk_ids. apply NoDup_fmap_2_strong; [|apply NoDup_seq].
  intros i j _ _ Heq.
  apply (inj (String.app asset_id)), (inj (String.app "_")) in Heq.
  by apply (inj pretty) in Heq.
Qed.

Lemma process_document_ok uuid4 file_input ds asset_id ds' :
  process_document uuid4 file_input ds = (Ok asset_id, ds') ->
  asset_id = uuid4 /\
  exists texts,
    _process_file (FileInput.file_path file_input)
      (asset_metadata uuid4 (FileInput.file_path file_input)) = Ok texts /\
    add_documents texts (chunk_ids uuid4 (length texts)) (vector_store ds)
      = (Ok tt, vector_store ds').
Proof.
  rewrite process_document_unfold. cbn.
  destruct (_process_file _ _) as [texts|e]; [|discriminate].
  destruct (add_documents _ _ _) as [[[]|e] vs] eqn:Hadd; [|discriminate].
  intros [= <- <-]. split; [reflexivity|]. by exists texts.
Qed.

(** C6.  A successful ingestion returns the generated asset id and writes
    to the index, in one [add_documents] call, the n chunks it produced
    with the ids assetId_0 ... assetId_(n-1): as many ids as chunks, the
    i-th being assetId_i, no id twice.  Every chunk carries in its
    metadata the asset id under "asset" and the input path under
    "source", so all chunks of the call share the asset id. *)
Theorem ingestion_tags_and_numbers_chunks uuid4 file_input ds asset_id ds' :
  process_document uuid4 file_input ds = (Ok asset_id, ds') ->
  let path := FileInput.file_path file_input in
  asset_id = uuid4 /\
  exists texts ids,
    _process_file path (asset_metadata asset_id path) = Ok texts /\
    add_documents texts ids (vector_store ds) = (Ok tt, vector_store ds') /\
    (forall d, d ∈ texts ->
       metadata d !! "asset" = Some (MStr asset_id) /\
       metadata d !! "source" = Some (MStr path)) /\
    length ids = length texts /\
    (forall i : nat, (i < length texts)%nat ->
       ids !! i = Some (asset_id +:+ "_" +:+ pretty i)) /\
    NoDup ids.
Proof.
  intros Hrun. apply process_document_ok in Hrun as (-> & texts & Hfile & Hadd).
  cbn. split; [reflexivity|].
  exists texts, (chunk_ids uuid4 (length texts)).
  destruct (asset_metadata_lookup uuid4 (FileInput.file_path file_input))
    as (Hne & Hasset & Hsource).
  split; [done|]. split; [done|]. split.
  { intros d Hd. split; eapply _process_file_metadata; eauto. }
  split; [apply chunk_ids_length|].
  split; [intros i Hi; by apply chunk_ids_lookup | apply chunk_ids_NoDup].
Qed.

(** C7, as the code has it.  Every upstream failure of an ingestion
    (loader or parse failure, embedding or index-write failure) is caught
    and reported to the caller as an HTTP error with status 400 whose
    detail is the original message. *)
Theorem upstream_failure_reported_400 uuid4 file_input ds cause ds' :
  upstream_failure uuid4 file_input ds cause ds' ->
  process_document uuid4 file_input ds = (Raise (HTTPException 400 (str cause)), ds').
Proof.
  intros Hfail. rewrite process_document_unfold. cbn.
  destruct Hfail as [loader cause Hsel Hload | texts cause vs Hfile Hadd].
  - unfold _process_file. destruct (OsPath.splitext _) as [root ext].
    cbn in Hsel. by rewrite Hsel; cbn; rewrite Hload.
  - by rewrite Hfile, Hadd.
Qed.

End IngestionProperties.

(** ** Text and stream increments *)

Lemma append_nil_r (s : string) : s +:+ "" = s.
Proof. induction s as [|a s IH]; [reflexivity | exact (f_equal (String a) IH)]. Qed.

Lemma append_assoc (s1 s2 s3 : string) : (s1 +:+ s2) +:+ s3 = s1 +:+ (s2 +:+ s3).
Proof. induction s1 as [|a s1 IH]; [reflexivity | exact (f_equal (String a) IH)]. Qed.

Lemma encode_utf8_append (s1 s2 : string) :
  PyStr.encode_utf8 (s1 +:+ s2) = PyStr.encode_utf8 s1 ++ PyStr.encode_utf8 s2.
Proof.
  unfold PyStr.encode_utf8, String.list_byte_of_string.
  induction s1 as [|a s1 IH]; [reflexivity|].
  exact (f_equal (cons (Ascii.byte_of_ascii a)) IH).
Qed.

Lemma encode_utf8_empty (s : string) : PyStr.encode_utf8 s = [] <-> s = "".
Proof. split; [by destruct s | by intros ->]. Qed.

Section Chunks.
Context {env : Collaborators}.

Lemma get_answer (chunk : Chunk.t) : Chunk.get "answer" chunk = Chunk.answer chunk.
Proof. reflexivity. Qed.

(** An increment is skipped exactly when it has no answer or an empty one. *)
Lemma answer_bytes_None (chunk : Chunk.t) :
  answer_bytes chunk = None <->
  Chunk.answer chunk = None \/ Chunk.answer chunk = Some "".
Proof.
  unfold answer_bytes. rewrite get_answer.
  destruct (Chunk.answer chunk) as [[|a s]|]; cbn.
  - split; [by right | done].
  - split; [done | by intros [|]].
  - split; [by left | done].
Qed.

Lemma answer_bytes_Some (chunk : Chunk.t) (fragment : list Byte.byte) :
  answer_bytes chunk = Some fragment ->
  fragment <> [] /\
  exists text, Chunk.answer chunk = Some text /\ fragment = PyStr.encode_utf8 text.
Proof.
  unfold answer_bytes. rewrite get_answer.
  destruct (Chunk.answer chunk) as [[|a s]|]; cbn; [done| |done].
  intros [= <-]. split; [done|]. by eexists.
Qed.

(** The answer text carried by a run of increments. *)
Lemma answer_of_sum (first : Chunk.t) (rest : list Chunk.t) :
  default "" (Chunk.answer (foldl Chunk.add first rest)) =
  default "" (Chunk.answer first) +:+ PyStr.concat (omap Chunk.answer rest).
Proof.
  revert first. induction rest as [|chunk rest IH]; intros first.
  - symmetry. apply append_nil_r.
  - cbn [foldl]. rewrite IH. cbn.
    destruct (Chunk.answer first) as [a|], (Chunk.answer chunk) as [b|]; cbn.
    + apply append_assoc.
    + reflexivity.
    + reflexivity.
    + reflexivity.
Qed.

Lemma emitted_bytes (chunks : list Chunk.t) :
  concat (omap answer_bytes chunks) =
  PyStr.encode_utf8 (PyStr.concat (omap Chunk.answer chunks)).
Proof.
  induction chunks as [|chunk chunks IH]; [reflexivity|].
  cbn [omap list_omap]. unfold answer_bytes at 1. rewrite get_answer.
  destruct (Chunk.answer chunk) as [text|]; [|exact IH].
  change (PyStr.concat (text :: omap Chunk.answer chunks))
    with (text +:+ PyStr.concat (omap Chunk.answer chunks)).
  rewrite encode_utf8_append, <- IH.
  by destruct text.
Qed.

(** Whatever the increments of a run are, the fragments sent to the
    client are non-empty and spell the answer the run sums up to. *)
Lemma emitted_spell_answer (chunks : list Chunk.t) (output : string) :
  Chunk.sum chunks ≫= Chunk.get "answer" = Some output ->
  concat (omap answer_bytes chunks) = PyStr.encode_utf8 output /\
  forall fragment, fragment ∈ omap answer_bytes chunks -> fragment <> [].
Proof.
  intros Hsum. split.
  - rewrite emitted_bytes. f_equal.
    destruct chunks as [|first rest]; [done|].
    change (Chunk.answer (foldl Chunk.add first rest) = Some output) in Hsum.
    pose proof (answer_of_sum first rest) as Hans. rewrite Hsum in Hans. cbn in Hans.
    rewrite Hans. cbn. by destruct (Chunk.answer first).
  - intros fragment Hin. apply list_elem_of_omap in Hin as (chunk & _ & Hchunk).
    by apply answer_bytes_Some in Hchunk as [? _].
Qed.

End Chunks.

(** ** The conversation pipeline *)

Section PipelineProperties.
Context {env : Collaborators}.

Implicit Types (self : ChatService) (session : Session).

Lemma session_wf_bound session a :
  session_wf session -> asset_id session = Some a ->
  rag_chain session = Some (setup_rag_chain a).
Proof.
  unfold session_wf. intros Hwf Hasset. rewrite Hasset in Hwf.
  destruct (rag_chain session); [by subst | done].
Qed.

Lemma session_wf_chain session chain :
  session_wf session -> rag_chain session = Some chain ->
  exists a, asset_id session = Some a /\ chain = setup_rag_chain a.
Proof.
  unfold session_wf. intros Hwf Hchain. rewrite Hchain in Hwf.
  destruct (asset_id session) as [a|]; [by exists a | done].
Qed.

Lemma add_messages_wf sid messages self :
  store_wf self -> store_wf (add_messages sid messages self).
Proof.
  intros Hwf sid' session. unfold add_messages. cbn [store].
  rewrite lookup_alter_Some.
  intros [(_ & old & Hold & ->) | (_ & Hsame)]; [|by eapply Hwf].
  exact (Hwf _ _ Hold).
Qed.

Lemma get_session_history_wf sid self :
  store_wf self -> store_wf (snd (get_session_history sid self)).
Proof.
  intros Hwf. unfold get_session_history.
  destruct (store self !! sid) as [session|]; [done|].
  intros sid' session. cbn [snd store]. rewrite lookup_insert_Some.
  intros [(_ & <-) | (_ & Hsame)]; [done | by eapply Hwf].
Qed.

Lemma rag_chain_stream_wf chain inputs sid self :
  store_wf self -> store_wf (snd (rag_chain_stream chain inputs sid self)).
Proof.
  intros Hwf. apply (get_session_history_wf sid) in Hwf.
  unfold rag_chain_stream.
  destruct (get_session_history sid self) as [hist self1]. cbn [snd] in Hwf.
  destruct (Chunk.get _ inputs) as [input|]; [|done].
  destruct (retrieval_chain_stream _ _ _ _) as [chunks [e|]]; [done|].
  destruct (Chunk.sum chunks ≫= _); [|done].
  by apply add_messages_wf.
Qed.

Lemma generate_response_wf chat_data message_input self :
  store_wf self -> store_wf (snd (generate_response chat_data message_input self)).
Proof.
  intros Hwf. unfold generate_response, stream_generator.
  destruct (rag_chain chat_data) as [chain|]; [|done].
  pose proof (rag_chain_stream_wf chain
    {| Chunk.input := Some (MessageInput.message message_input);
       Chunk.chat_history := None; Chunk.context := None; Chunk.answer := None |}
    (MessageInput.chat_id message_input) self Hwf) as Hafter.
  by destruct (rag_chain_stream _ _ _ _) as [[chunks failure] self1].
Qed.

Lemma chat_message_Ok message_input self response self1 :
  chat_message message_input self = (Ok response, self1) ->
  self1 = self /\
  exists chat_data,
    store self !! MessageInput.chat_id message_input = Some chat_data /\
    response = {| body_iterator := generate_response chat_data message_input;
                  media_type := "text/event-stream" |}.
Proof.
  unfold chat_message.
  destruct (store self !! _) as [chat_data|]; [|discriminate].
  intros [= <- <-]. split; [done | by exists chat_data].
Qed.

(** Every state the endpoints can reach keeps its sessions well formed. *)
Lemma reachable_wf self : reachable self -> store_wf self.
Proof.
  induction 1 as
    [ vs
    | uuid4 file_input self r ds _ IH _
    | uuid4 chat_input self r self' _ IH Hstart
    | chat_id self r self' _ IH Hhist
    | message_input self0 response self1 self out self' _ _ Hmsg _ IH Hbody ].
  - intros sid session. cbn. by rewrite lookup_empty.
  - exact IH.
  - injection Hstart as _ <-. intros sid session. cbn [store].
    rewrite lookup_insert_Some. intros [(_ & <-) | (_ & Hsame)]; [done | by eapply IH].
  - unfold chat_history in Hhist.
    destruct (store self !! chat_id); by injection Hhist as _ <-.
  - apply chat_message_Ok in Hmsg as (_ & chat_data & _ & ->). cbn in Hbody.
    pose proof (generate_response_wf chat_data message_input self IH) as Hafter.
    by rewrite Hbody in Hafter.
Qed.

(** *** Retrieval *)

Lemma retriever_scoped a vs query docs :
  honours_filter ->
  retriever_invoke (retriever (setup_rag_chain a)) vs query = Ok docs ->
  (length docs <= 2)%nat /\
  forall d, d ∈ docs -> metadata d !! "asset" = Some (MStr a).
Proof.
  intros Hcontract Hsearch. apply Hcontract in Hsearch as [Hlen Hall].
  split; [exact Hlen|]. intros d Hd.
  rewrite Forall_forall in Hall. specialize (Hall d Hd).
  unfold where_matches in Hall.
  cbn [setup_rag_chain retriever search_kwargs SearchKwargs.filter
         where_field where_in] in Hall.
  destruct (metadata d !! "asset") as [v|]; [|done].
  apply bool_decide_eq_true_1, list_elem_of_singleton in Hall. by subst.
Qed.

Lemma history_aware_retriever_scoped a vs input chat_history docs :
  honours_filter ->
  history_aware_retriever (setup_rag_chain a) vs input chat_history = Ok docs ->
  (length docs <= 2)%nat /\
  forall d, d ∈ docs -> metadata d !! "asset" = Some (MStr a).
Proof.
  intros Hcontract. unfold history_aware_retriever.
  destruct chat_history as [|turn turns].
  - by apply retriever_scoped.
  - destruct (llm_invoke _) as [query|e]; [|discriminate].
    by apply retriever_scoped.
Qed.

Lemma retrieval_chain_context chain vs input chat_history chunk docs :
  chunk ∈ fst (retrieval_chain_stream chain vs input chat_history) ->
  Chunk.context chunk = Some docs ->
  history_aware_retriever chain vs input chat_history = Ok docs.
Proof.
  unfold retrieval_chain_stream.
  destruct (history_aware_retriever _ _ _ _) as [found|e].
  - intros Hin Hctx. f_equal.
    destruct (llm_stream _) as [first rest | produced e]; cbn [fst] in Hin.
    all: apply elem_of_cons in Hin as [-> | Hin]; [discriminate Hctx|].
    all: apply elem_of_cons in Hin as [-> | Hin]; [by injection Hctx|].
    all: apply list_elem_of_fmap in Hin as (fragment & -> & _); discriminate Hctx.
  - cbn [fst]. intros Hin%list_elem_of_singleton Hctx. by subst chunk.
Qed.

(** C1.  Over an index that honours its filter contract, in every
    reachable state every session bound to an asset id A holds a pipeline
    whose retriever asks for k = 2 chunks under the filter "asset" in
    [A].  So the retrieval stage, on any index content, any input and any
    history, returns at most two chunks, all tagged with A: a chunk
    tagged with another asset id B never comes back, and the context the
    pipeline streams holds chunks of A only. *)
Theorem retrieval_scoped_to_asset self sid session a :
  honours_filter ->
  reachable self ->
  store self !! sid = Some session ->
  asset_id session = Some a ->
  exists chain,
    rag_chain session = Some chain /\
    search_kwargs (retriever chain) =
      {| SearchKwargs.k := 2;
         SearchKwargs.filter := {| where_field := "asset"; where_in := [MStr a] |} |} /\
    (forall vs input chat_history docs,
        history_aware_retriever chain vs input chat_history = Ok docs ->
        (length docs <= 2)%nat /\
        forall d, d ∈ docs ->
          metadata d !! "asset" = Some (MStr a) /\
          forall b, b <> a -> metadata d !! "asset" <> Some (MStr b)) /\
    (forall vs input chat_history chunk docs d,
        chunk ∈ fst (retrieval_chain_stream chain vs input chat_history) ->
        Chunk.context chunk = Some docs ->
        d ∈ docs -> metadata d !! "asset" = Some (MStr a)).
Proof.
  intros Hcontract Hreach Hsid Hasset.
  pose proof (reachable_wf _ Hreach _ _ Hsid) as Hwf.
  exists (setup_rag_chain a). split; [by apply session_wf_bound|].
  split; [reflexivity|]. split.
  - intros vs input chat_history docs Hdocs.
    apply history_aware_retriever_scoped in Hdocs as [Hlen Htag]; [|done].
    split; [exact Hlen|]. intros d Hd. specialize (Htag d Hd).
    split; [exact Htag|]. intros b Hb. rewrite Htag. congruence.
  - intros vs input chat_history chunk docs d Hin Hctx Hd.
    apply retrieval_chain_context with (docs := docs) in Hin; [|done].
    by apply history_aware_retriever_scoped in Hin as [_ Htag]; [apply Htag|].
Qed.

(** *** One message/response cycle *)

Lemma answer_kept (first : Chunk.t) (rest : list Chunk.t) :
  is_Some (Chunk.answer first) -> is_Some (Chunk.answer (foldl Chunk.add first rest)).
Proof.
  revert first. induction rest as [|chunk rest IH]; intros first Hfirst; [done|].
  cbn [foldl]. apply IH. destruct Hfirst as [a Ha]. cbn. rewrite Ha.
  by destruct (Chunk.answer chunk).
Qed.

(** A run of the retrieval chain that completes carries an answer. *)
Lemma completed_run_has_answer chain vs input chat_history chunks :
  retrieval_chain_stream chain vs input chat_history = (chunks, None) ->
  is_Some (Chunk.sum chunks ≫= Chunk.get "answer").
Proof.
  unfold retrieval_chain_stream.
  destruct (history_aware_retriever _ _ _ _) as [docs|e]; [|discriminate].
  destruct (llm_stream _) as [first rest | produced e]; [|discriminate].
  intros [= <-]. cbn [Chunk.sum mbind option_bind fmap list_fmap foldl].
  rewrite get_answer. apply answer_kept. by eexists.
Qed.

(** What a completed cycle did: the response was built from the stored
    session, whose pipeline ran on the stored history, its fragments are
    the non-empty answers of the run's increments, and the submitted
    message and the summed answer were appended to that session. *)
Lemma completed_cycle self message_input response self1 fragments self' :
  store_wf self ->
  chat_message message_input self = (Ok response, self1) ->
  body_iterator response self1 = (fragments, None, self') ->
  exists session chunks output,
    self1 = self /\
    store self !! MessageInput.chat_id message_input = Some session /\
    fragments = omap answer_bytes chunks /\
    Chunk.sum chunks ≫= Chunk.get "answer" = Some output /\
    self' = add_messages (MessageInput.chat_id message_input)
              [HumanMessage (MessageInput.message message_input); AIMessage output] self.
Proof.
  intros Hwf Hmsg Hbody.
  apply chat_message_Ok in Hmsg as (-> & session & Hsid & ->).
  cbn [body_iterator] in Hbody. unfold generate_response in Hbody.
  destruct (rag_chain session) as [chain|] eqn:Hchain; [|discriminate].
  apply (session_wf_chain _ _ (Hwf _ _ Hsid)) in Hchain as (a & _ & ->).
  unfold stream_generator, rag_chain_stream in Hbody.
  rewrite (get_session_history_known _ _ _ Hsid) in Hbody.
  cbn [setup_rag_chain input_messages_key output_messages_key Chunk.get Chunk.input
         String.eqb Ascii.eqb Bool.eqb] in Hbody.
  destruct (retrieval_chain_stream _ _ _ _) as [chunks [e|]] eqn:Hrun; [discriminate|].
  destruct (completed_run_has_answer _ _ _ _ _ Hrun) as [output Hout].
  rewrite Hout in Hbody. injection Hbody as <- <-.
  by exists session, chunks, output.
Qed.

(** C2.  A message/response cycle that completes on a reachable service
    appends exactly two turns to the history of its session, after all
    prior turns: first the human turn, whose content is the submitted
    message verbatim, then an assistant turn.  The session keeps its
    asset id and pipeline, and no other session changes. *)
Theorem cycle_appends_human_then_assistant
    self message_input response self1 fragments self' session :
  reachable self ->
  store self !! MessageInput.chat_id message_input = Some session ->
  chat_message message_input self = (Ok response, self1) ->
  body_iterator response self1 = (fragments, None, self') ->
  exists answer session',
    store self' !! MessageInput.chat_id message_input = Some session' /\
    history session' =
      history session ++
        [HumanMessage (MessageInput.message message_input); AIMessage answer] /\
    length (history session') = (length (history session) + 2)%nat /\
    asset_id session' = asset_id session /\
    rag_chain session' = rag_chain session /\
    forall other, other <> MessageInput.chat_id message_input ->
      store self' !! other = store self !! other.
Proof.
  intros Hreach Hsid Hmsg Hbody.
  destruct (completed_cycle _ _ _ _ _ _ (reachable_wf _ Hreach) Hmsg Hbody)
    as (session0 & chunks & output & _ & Hsid0 & _ & _ & ->).
  rewrite Hsid in Hsid0. injection Hsid0 as <-.
  exists output. eexists. unfold add_messages. cbn [store].
  split; [by rewrite lookup_alter_eq, Hsid|]. cbn.
  split; [done|]. split; [by rewrite length_app; cbn|].
  split; [done|]. split; [done|].
  intros other Hother. by rewrite lookup_alter_ne.
Qed.

(** C3, as the code has it.  In a completed cycle on a reachable service
    the streamed output is a sequence of zero or more fragments, none of
    them empty (an increment with no "answer" or an empty one is
    skipped), whose concatenation is the UTF-8 text of the assistant
    answer recorded last in the session's history; there is at least one
    fragment exactly when that answer is not empty. *)
Theorem fragments_spell_recorded_answer
    self message_input response self1 fragments self' :
  reachable self ->
  chat_message message_input self = (Ok response, self1) ->
  body_iterator response self1 = (fragments, None, self') ->
  (forall chunk, answer_bytes chunk = None <->
      Chunk.answer chunk = None \/ Chunk.answer chunk = Some "") /\
  (forall fragment, fragment ∈ fragments -> fragment <> []) /\
  exists answer session',
    store self' !! MessageInput.chat_id message_input = Some session' /\
    last (history session') = Some (AIMessage answer) /\
    concat fragments = PyStr.encode_utf8 answer /\
    (fragments = [] <-> answer = "").
Proof.
  intros Hreach Hmsg Hbody.
  destruct (completed_cycle _ _ _ _ _ _ (reachable_wf _ Hreach) Hmsg Hbody)
    as (session & chunks & output & _ & Hsid & -> & Hout & ->).
  apply emitted_spell_answer in Hout as [Hconcat Hnonempty].
  split; [exact answer_bytes_None|]. split; [exact Hnonempty|].
  exists output. eexists. unfold add_messages. cbn [store].
  split; [by rewrite lookup_alter_eq, Hsid|]. cbn [history].
  split.
  { change [HumanMessage (MessageInput.message message_input); AIMessage output]
      with ([HumanMessage (MessageInput.message message_input)] ++ [AIMessage output]).
    rewrite (assoc_L (++)). apply last_snoc. }
  split; [exact Hconcat|]. split.
  - intros Hnil. rewrite Hnil in Hconcat. by apply encode_utf8_empty.
  - intros ->. destruct (omap answer_bytes chunks) as [|fragment more]; [done|].
    exfalso. apply (Hnonempty fragment); [by left|].
    cbn in Hconcat. by destruct fragment.
Qed.

End PipelineProperties.

(** ** The reference collaborators meet the contract, and sample runs *)

Lemma reference_honours_filter (reply : LLMStream) :
  honours_filter (env := Reference.collaborators reply).
Proof.
  intros vs query n w docs. cbn. unfold Reference.search. intros [= <-]. split.
  - rewrite length_take. lia.
  - apply Forall_forall. intros d Hd.
    apply subseteq_take in Hd. rewrite merge_sort_Permutation in Hd.
    apply list_elem_of_In, filter_In in Hd as [_ Hmatch]. exact Hmatch.
Qed.

Lemma demo_talkative_reachable : reachable Demo.talkative.
Proof.
  eapply (reachable_start (env := Reference.talkative)
            "chat-1" {| ChatInput.asset_id := "A" |} _ (Ok "chat-1")).
  - apply (reachable_initial (env := Reference.talkative) Reference.seeded).
  - reflexivity.
Qed.

Lemma demo_silent_reachable : reachable Demo.silent.
Proof.
  eapply (reachable_start (env := Reference.silent)
            "chat-1" {| ChatInput.asset_id := "A" |} _ (Ok "chat-1")).
  - apply (reachable_initial (env := Reference.silent) Reference.seeded).
  - reflexivity.
Qed.

(** The nearest chunks to the query are B's, yet a search scoped to A
    returns A's two chunks. *)
Example scoped_search_skips_nearer_chunks :
  Reference.search Reference.seeded "the quick brown fix" 2
    {| where_field := "asset"; where_in := [MStr "A"] |}
  = Ok [ Reference.chunk "A" "the quick brown fox";
         Reference.chunk "A" "a much longer passage about something else entirely" ].
Proof. vm_compute. reflexivity. Qed.

Example demo_stream :
  body_iterator (Demo.response Reference.talkative) Demo.talkative
  = ([PyStr.encode_utf8 "The document "; PyStr.encode_utf8 "says hello."], None,
     Demo.answered).
Proof. vm_compute. reflexivity. Qed.

(** ** The theorems at concrete inputs *)

Lemma retrieval_scoped_to_asset_witness :
  honours_filter (env := Reference.talkative) /\
  store Demo.answered !! "chat-1" = Some Demo.answered_session /\
  exists chain,
    rag_chain Demo.answered_session = Some chain /\
    search_kwargs (retriever chain) =
      {| SearchKwargs.k := 2;
         SearchKwargs.filter := {| where_field := "asset"; where_in := [MStr "A"] |} |} /\
    (forall vs input chat_history docs,
        history_aware_retriever (env := Reference.talkative) chain vs input chat_history
          = Ok docs ->
        (length docs <= 2)%nat /\
        forall d, d ∈ docs ->
          metadata d !! "asset" = Some (MStr "A") /\
          forall b, b <> "A" -> metadata d !! "asset" <> Some (MStr b)) /\
    (forall vs input chat_history chunk docs d,
        chunk ∈ fst (retrieval_chain_stream (env := Reference.talkative)
                       chain vs input chat_history) ->
        Chunk.context chunk = Some docs ->
        d ∈ docs -> metadata d !! "asset" = Some (MStr "A")).
Proof.
  split; [apply reference_honours_filter|].
  split; [vm_compute; reflexivity|].
  apply (retrieval_scoped_to_asset (env := Reference.talkative)
           Demo.answered "chat-1" Demo.answered_session "A").
  - apply reference_honours_filter.
  - eapply (reachable_stream (env := Reference.talkative) Demo.question
              Demo.talkative (Demo.response Reference.talkative) Demo.talkative
              Demo.talkative _ Demo.answered).
    + exact demo_talkative_reachable.
    + reflexivity.
    + exact demo_talkative_reachable.
    + vm_compute. reflexivity.
  - vm_compute. reflexivity.
  - reflexivity.
Defined.

Lemma cycle_appends_human_then_assistant_witness :
  store Demo.talkative !! "chat-1" = Some Demo.session /\
  exists answer session',
    store Demo.answered !! "chat-1" = Some session' /\
    history session' =
      history Demo.session ++ [HumanMessage "what does the document say?"; AIMessage answer] /\
    length (history session') = (length (history Demo.session) + 2)%nat /\
    asset_id session' = asset_id Demo.session /\
    rag_chain session' = rag_chain Demo.session /\
    forall other, other <> "chat-1" ->
      store Demo.answered !! other = store Demo.talkative !! other.
Proof.
  split; [vm_compute; reflexivity|].
  apply (cycle_appends_human_then_assistant (env := Reference.talkative)
           Demo.talkative Demo.question (Demo.response Reference.talkative)
           Demo.talkative
           [PyStr.encode_utf8 "The document "; PyStr.encode_utf8 "says hello."]
           Demo.answered Demo.session).
  - exact demo_talkative_reachable.
  - vm_compute. reflexivity.
  - reflexivity.
  - vm_compute. reflexivity.
Defined.

(** C3 as stated fails: a chat model whose answer is empty completes the
    cycle for a known session, the empty answer is recorded, and not one
    fragment is streamed. *)
Lemma empty_answer_streams_no_fragment :
  reachable Demo.silent /\
  chat_message (env := Reference.silent) Demo.question Demo.silent
    = (Ok (Demo.response Reference.silent), Demo.silent) /\
  body_iterator (Demo.response Reference.silent) Demo.silent
    = ([], None, Demo.unanswered) /\
  (exists session',
      store Demo.unanswered !! "chat-1" = Some session' /\
      last (history session') = Some (AIMessage "")) /\
  ~ (1 <= length (fst (fst (body_iterator (Demo.response Reference.silent) Demo.silent))))%nat.
Proof.
  split; [exact demo_silent_reachable|].
  split; [reflexivity|].
  split; [vm_compute; reflexivity|].
  split.
  - eexists. split; vm_compute; reflexivity.
  - vm_compute. lia.
Qed.

Lemma fragments_spell_recorded_answer_witness :
  (forall fragment,
      fragment ∈ [PyStr.encode_utf8 "The document "; PyStr.encode_utf8 "says hello."] ->
      fragment <> []) /\
  exists answer session',
    store Demo.answered !! "chat-1" = Some session' /\
    last (history session') = Some (AIMessage answer) /\
    concat [PyStr.encode_utf8 "The document "; PyStr.encode_utf8 "says hello."]
      = PyStr.encode_utf8 answer /\
    ([PyStr.encode_utf8 "The document "; PyStr.encode_utf8 "says hello."] = [] <->
     answer = "").
Proof.
  refine (proj2 (fragments_spell_recorded_answer (env := Reference.talkative)
           Demo.talkative Demo.question (Demo.response Reference.talkative)
           Demo.talkative
           [PyStr.encode_utf8 "The document "; PyStr.encode_utf8 "says hello."]
           Demo.answered _ _ _)).
  - exact demo_talkative_reachable.
  - reflexivity.
  - vm_compute. reflexivity.
Defined.

Lemma unknown_session_rejected_witness :
  ("nope" ∉ dom (store Demo.talkative)) /\
  chat_message (env := Reference.talkative)
    {| MessageInput.chat_id := "nope"; MessageInput.message := "hello" |} Demo.talkative
    = (Raise (HTTPException 400 "Invalid chat ID"), Demo.talkative) /\
  chat_history (env := Reference.talkative) "nope" Demo.talkative
    = (Raise (HTTPException 400 "Invalid chat ID"), Demo.talkative) /\
  ("chat-1" ∈ dom (store Demo.answered)) /\
  exists session,
    store Demo.answered !! "chat-1" = Some session /\
    (forall msg,
       chat_message (env := Reference.talkative)
         {| MessageInput.chat_id := "chat-1"; MessageInput.message := msg |} Demo.answered
       = (Ok {| body_iterator :=
                  generate_response session
                    {| MessageInput.chat_id := "chat-1"; MessageInput.message := msg |};
                media_type := "text/event-stream" |}, Demo.answered)) /\
    chat_history (env := Reference.talkative) "chat-1" Demo.answered
      = (Ok (Reference.role_and_content <$> history session), Demo.answered).
Proof.
  assert ("nope" ∉ dom (store Demo.talkative)) as Hunknown.
  { apply not_elem_of_dom. vm_compute. reflexivity. }
  assert ("chat-1" ∈ dom (store Demo.answered)) as Hknown.
  { apply elem_of_dom. exists Demo.answered_session. vm_compute. reflexivity. }
  split; [exact Hunknown|].
  destruct (unknown_session_rejected (env := Reference.talkative) Demo.talkative "nope")
    as (_ & _ & _ & _ & Hreject).
  destruct (Hreject Hunknown) as [Hmessage Hhistory].
  split; [apply Hmessage|]. split; [exact Hhistory|].
  split; [exact Hknown|].
  destruct (unknown_session_rejected (env := Reference.talkative) Demo.answered "chat-1")
    as (_ & _ & Haccept & _).
  exact (Haccept Hknown).
Defined.

Lemma unsupported_extension_rejected_witness :
  (snd (OsPath.splitext "table.csv") ∉ supported_extensions) /\
  process_document (env := Reference.talkative) "X" Demo.csv Demo.documents
    = (Raise (HTTPException 400 "Unsupported file type: .csv"), Demo.documents).
Proof.
  assert (snd (OsPath.splitext "table.csv") ∉ supported_extensions) as Hext.
  { apply (bool_decide_unpack _). vm_compute. exact I. }
  split; [exact Hext|].
  exact (unsupported_extension_rejected (env := Reference.talkative)
           "X" Demo.csv Demo.documents Hext).
Defined.

Lemma ingestion_tags_and_numbers_chunks_witness :
  exists ds',
    process_document (env := Reference.talkative) "X" Demo.pdf Demo.documents = (Ok "X", ds') /\
    exists texts ids,
      _process_file (env := Reference.talkative) "paper.pdf" (asset_metadata "X" "paper.pdf")
        = Ok texts /\
      add_documents texts ids (vector_store Demo.documents) = (Ok tt, vector_store ds') /\
      (forall d, d ∈ texts ->
         metadata d !! "asset" = Some (MStr "X") /\
         metadata d !! "source" = Some (MStr "paper.pdf")) /\
      length ids = length texts /\
      (forall i : nat, (i < length texts)%nat -> ids !! i = Some ("X" +:+ "_" +:+ pretty i)) /\
      NoDup ids.
Proof.
  exists (snd (process_document (env := Reference.talkative) "X" Demo.pdf Demo.documents)).
  assert (process_document (env := Reference.talkative) "X" Demo.pdf Demo.documents
          = (Ok "X", snd (process_document (env := Reference.talkative)
                            "X" Demo.pdf Demo.documents))) as Hrun.
  { vm_compute. reflexivity. }
  split; [exact Hrun|].
  exact (proj2 (ingestion_tags_and_numbers_chunks (env := Reference.talkative)
                  "X" Demo.pdf Demo.documents "X" _ Hrun)).
Defined.

(** C7 as stated fails: the loader cannot read the file, and the caller
    gets status 400, which is no 5xx. *)
Lemma loader_failure_is_not_5xx :
  upstream_failure (env := Reference.talkative) "X" Demo.missing Demo.documents
    (RuntimeError "Error loading missing.txt") Demo.documents /\
  process_document (env := Reference.talkative) "X" Demo.missing Demo.documents
    = (Raise (HTTPException 400 "Error loading missing.txt"), Demo.documents) /\
  ~ reported_5xx
      (fst (process_document (env := Reference.talkative) "X" Demo.missing Demo.documents)).
Proof.
  split; [|split].
  - apply (loader_failure (env := Reference.talkative) "X" Demo.missing Demo.documents
             (TextLoader "missing.txt")); reflexivity.
  - vm_compute. reflexivity.
  - intros (status_code & detail & Hresponse & Hrange).
    vm_compute in Hresponse. injection Hresponse as <- _. lia.
Qed.

Lemma upstream_failure_reported_400_witness :
  process_document (env := Reference.talkative) "X" Demo.missing Demo.documents
    = (Raise (HTTPException 400 (str (RuntimeError "Error loading missing.txt"))),
       Demo.documents).
Proof.
  apply (upstream_failure_reported_400 (env := Reference.talkative)
           "X" Demo.missing Demo.documents).
  apply (loader_failure (env := Reference.talkative) "X" Demo.missing Demo.documents
           (TextLoader "missing.txt")); reflexivity.
Defined.

Lemma chat_history_read_only_witness :
  store Demo.answered !! "chat-1" = Some Demo.answered_session /\
  chat_history (env := Reference.talkative) "chat-1" Demo.answered
    = (Ok ["human: what does the document say?"; "ai: The document says hello."],
       Demo.answered).
Proof.
  assert (store Demo.answered !! "chat-1" = Some Demo.answered_session) as Hsid.
  { vm_compute. reflexivity. }
  split; [exact Hsid|].
  exact (chat_history_read_only (env := Reference.talkative)
           Demo.answered "chat-1" Demo.answered_session Hsid).
Defined.

(** * Further properties of the code *)

(** ** Paths and extensions *)

Lemma substring_whole (s : string) : String.substring 0 (String.length s) s = s.
Proof. induction s as [|a s IH]; [reflexivity | exact (f_equal (String a) IH)]. Qed.

Lemma substring_empty (n m : nat) : String.substring n m "" = "".
Proof. by destruct n, m. Qed.

(** Cutting a text at any index and gluing the two parts gives it back. *)
Lemma take_drop (n : nat) (p : string) :
  String.substring 0 n p +:+ String.substring n (String.length p - n) p = p.
Proof.
  revert n. induction p as [|a p IH]; intros n.
  - by rewrite !substring_empty.
  - destruct n as [|n].
    + exact (f_equal (String a) (substring_whole p)).
    + exact (f_equal (String a) (IH n)).
Qed.

Lemma get_drop (n j : nat) (p : string) :
  String.get j (String.substring n (String.length p - n) p) = String.get (n + j) p.
Proof.
  revert n. induction p as [|a p IH]; intros n.
  - rewrite substring_empty. by destruct j, n.
  - destruct n as [|n].
    + change (String.substring 0 (String.length (String a p) - 0) (String a p))
        with (String a (String.substring 0 (String.length p) p)).
      by rewrite substring_whole.
    + exact (IH n).
Qed.

(** What [rfind_from] returns: [-1] when the character does not occur, and
    otherwise the offset plus the last position holding it. *)
Lemma rfind_from_spec (i : Z) (c : ascii) (p : string) :
  0 <= i ->
  (PyStr.rfind_from i c p = -1 /\ forall j, String.get j p <> Some c) \/
  (exists n : nat,
      PyStr.rfind_from i c p = i + Z.of_nat n /\
      String.get n p = Some c /\
      forall j, (n < j)%nat -> String.get j p <> Some c).
Proof.
  intros Hi. revert i Hi. induction p as [|a p IH]; intros i Hi.
  - left. split; [reflexivity|]. by intros [|j].
  - cbn [PyStr.rfind_from].
    destruct (IH (i + 1) ltac:(lia)) as [[Hnone Hfree] | (n & Hn & Hget & Hlast)].
    + rewrite Hnone. cbn [Z.leb Z.compare].
      destruct (Ascii.eqb_spec a c) as [->|Hne].
      * right. exists 0%nat. split; [lia|]. split; [reflexivity|].
        intros [|j] Hj; [lia|]. apply Hfree.
      * left. split; [reflexivity|]. intros [|j]; [cbn; congruence | apply Hfree].
    + rewrite Hn. rewrite (proj2 (Z.leb_le 0 _)) by lia.
      right. exists (S n). split; [lia|]. split; [exact Hget|].
      intros [|j] Hj; [lia|]. apply Hlast. lia.
Qed.

Lemma occurs_false (c : ascii) (s : string) :
  (forall j, String.get j s <> Some c) -> occurs c s = false.
Proof.
  induction s as [|a s IH]; intros Hfree; [reflexivity|].
  cbn [occurs]. apply orb_false_intro.
  - apply Ascii.eqb_neq. intros ->. by apply (Hfree 0%nat).
  - apply IH. intros j. apply (Hfree (S j)).
Qed.

(** X1.  [os.path.splitext] loses nothing: the root followed by the
    extension is the path it was given. *)
Theorem splitext_join (p : string) :
  fst (OsPath.splitext p) +:+ snd (OsPath.splitext p) = p.
Proof.
  unfold OsPath.splitext.
  destruct (_ && _).
  - cbn [fst snd]. unfold PyStr.take, PyStr.drop. apply take_drop.
  - cbn [fst snd]. apply append_nil_r.
Qed.

(** X2.  The extension [os.path.splitext] returns is either empty or a dot
    followed by characters among which there is neither a dot nor a slash:
    it is cut at the last dot of the last path component. *)
Theorem splitext_extension_shape (p : string) :
  snd (OsPath.splitext p) = "" \/
  exists rest,
    snd (OsPath.splitext p) = String "."%char rest /\
    occurs "."%char rest = false /\
    occurs "/"%char rest = false.
Proof.
  unfold OsPath.splitext.
  destruct (_ <? _) eqn:Hlt; [|by left].
  destruct (OsPath.has_stem _ _ _); [|by left].
  right. cbn [andb fst snd]. apply Z.ltb_lt in Hlt.
  unfold PyStr.rfind in *.
  destruct (rfind_from_spec 0 "."%char p ltac:(lia))
    as [[Hnone _] | (n & Hn & Hdot & Hlast)].
  { destruct (rfind_from_spec 0 "/"%char p ltac:(lia)) as [[Hs _] | (m & Hm & _)]; lia. }
  rewrite Hn in *. unfold PyStr.drop.
  replace (Z.to_nat (0 + Z.of_nat n)) with n by lia.
  pose proof (get_drop n 0 p) as Hhead.
  pose proof (fun j => get_drop n (S j) p) as Htail.
  destruct (String.substring n (String.length p - n) p) as [|a rest].
  { rewrite Nat.add_0_r, Hdot in Hhead. discriminate. }
  cbn [String.get] in Hhead, Htail. rewrite Nat.add_0_r, Hdot in Hhead.
  injection Hhead as ->. exists rest. split; [reflexivity|].
  split; apply occurs_false; intros j; rewrite Htail.
  - apply Hlast. lia.
  - destruct (rfind_from_spec 0 "/"%char p ltac:(lia))
      as [[_ Hfree] | (m & Hm & _ & Hafter)]; [apply Hfree|].
    apply Hafter. lia.
Qed.

(** ** Ingestion: loaders, failures and chunk ids *)

Section IngestionExtras.
Context {env : Collaborators}.

Implicit Types (ds : DocumentService) (file_input : FileInput.t).

Lemma select_loader_supported file_path ext :
  ext ∈ supported_extensions ->
  select_loader file_path ext =
    Ok (if String.eqb ext ".txt" then TextLoader file_path
        else if String.eqb ext ".pdf" then PyPDFLoader file_path
        else Docx2txtLoader file_path).
Proof.
  unfold supported_extensions. rewrite !elem_of_cons, elem_of_nil.
  intros [-> | [-> | [-> | [-> | []]]]]; reflexivity.
Qed.

Lemma select_loader_Ok file_path ext loader :
  select_loader file_path ext = Ok loader -> ext ∈ supported_extensions.
Proof.
  intros Hsel. destruct (decide (ext ∈ supported_extensions)) as [Hin|Hout]; [exact Hin|].
  rewrite (select_loader_unsupported _ _ Hout) in Hsel. discriminate.
Qed.

Lemma _process_file_unfold file_path md :
  _process_file file_path md =
    loader ← select_loader file_path (snd (OsPath.splitext file_path));
    documents ← load loader;
    Ok (split_documents 1000 200
          (if bool_decide (md ≠ ∅) then metadata_update md <$> documents else documents)).
Proof. unfold _process_file. by destruct (OsPath.splitext file_path). Qed.

(** X3.  A failed ingestion is always reported with status 400, and for
    one of two reasons only: the extension is not supported (the message
    names it and the index is untouched), or the extension is supported and
    the loader or the index write raised (the message is the original one
    and the index is in the state the failed write left). *)
Theorem ingestion_failure_classified uuid4 file_input ds e ds' :
  process_document uuid4 file_input ds = (Raise e, ds') ->
  let ext := snd (OsPath.splitext (FileInput.file_path file_input)) in
  ((ext ∉ supported_extensions) /\
   e = HTTPException 400 ("Unsupported file type: " +:+ ext) /\ ds' = ds) \/
  ((ext ∈ supported_extensions) /\
   exists cause,
     upstream_failure uuid4 file_input ds cause ds' /\
     e = HTTPException 400 (str cause)).
Proof.
  rewrite process_document_unfold. cbn zeta.
  destruct (_process_file _ _) as [texts|e0] eqn:Hfile.
  - destruct (add_documents _ _ _) as [[[]|cause] vs] eqn:Hadd; [discriminate|].
    intros [= <- <-]. right. split.
    + rewrite _process_file_unfold in Hfile.
      destruct (select_loader _ _) as [loader|] eqn:Hsel; [|discriminate].
      by eapply select_loader_Ok.
    + exists cause. split; [|reflexivity]. by eapply index_failure.
  - intros [= <- <-]. rewrite _process_file_unfold in Hfile.
    destruct (select_loader _ _) as [loader|e1] eqn:Hsel.
    + right. split; [by eapply select_loader_Ok|].
      cbn in Hfile. destruct (load loader) as [documents|cause] eqn:Hload; [discriminate|].
      injection Hfile as <-. exists cause. split; [|reflexivity].
      by eapply loader_failure.
    + left. cbn in Hfile. injection Hfile as <-.
      destruct (decide (snd (OsPath.splitext (FileInput.file_path file_input))
                        ∈ supported_extensions)) as [Hin|Hout].
      * rewrite (select_loader_supported _ _ Hin) in Hsel. discriminate.
      * rewrite (select_loader_unsupported _ _ Hout) in Hsel.
        injection Hsel as <-. by split.
Qed.

(** X4.  An ingestion succeeds only on a path that ends, letter for
    letter, with .txt, .pdf, .doc or .docx. *)
Theorem ingestion_success_needs_supported_suffix uuid4 file_input ds asset_id ds' :
  process_document uuid4 file_input ds = (Ok asset_id, ds') ->
  exists root ext,
    FileInput.file_path file_input = root +:+ ext /\ (ext ∈ supported_extensions).
Proof.
  intros Hrun. apply process_document_ok in Hrun as (_ & texts & Hfile & _).
  rewrite _process_file_unfold in Hfile.
  destruct (select_loader _ _) as [loader|] eqn:Hsel; [|discriminate].
  exists (fst (OsPath.splitext (FileInput.file_path file_input))),
         (snd (OsPath.splitext (FileInput.file_path file_input))).
  split; [|by eapply select_loader_Ok].
  unfold OsPath.splitext. destruct (_ && _); cbn [fst snd].
  - unfold PyStr.take, PyStr.drop. symmetry. apply take_drop.
  - symmetry. apply append_nil_r.
Qed.

(** X6.  Every chunk [_process_file] returns comes from one unit the
    loader produced: its text is one of the pieces the splitter cut that
    unit's text into, and its metadata is the unit's metadata overridden by
    the metadata passed in, so a key the caller did not pass (a page
    number, say) keeps the loader's value.  With empty metadata passed in,
    the loader's metadata is kept as is. *)
Theorem chunks_come_from_loaded_units file_path md texts d :
  _process_file file_path md = Ok texts ->
  d ∈ texts ->
  exists loader documents doc,
    select_loader file_path (snd (OsPath.splitext file_path)) = Ok loader /\
    load loader = Ok documents /\
    doc ∈ documents /\
    page_content d ∈ split_text 1000 200 (page_content doc) /\
    metadata d = md ∪ metadata doc /\
    (forall key, md !! key = None -> metadata d !! key = metadata doc !! key) /\
    (md = ∅ -> metadata d = metadata doc).
Proof.
  rewrite _process_file_unfold.
  destruct (select_loader _ _) as [loader|] eqn:Hsel; [cbn|discriminate].
  destruct (load loader) as [documents|] eqn:Hload; [cbn|discriminate].
  intros [= <-] Hd. unfold split_documents in Hd.
  apply list_elem_of_bind in Hd as (unit & Hd & Hunit).
  apply list_elem_of_fmap in Hd as (piece & -> & Hpiece). cbn [page_content metadata].
  assert (exists doc, doc ∈ documents /\ page_content unit = page_content doc /\
                      metadata unit = md ∪ metadata doc) as (doc & Hdoc & Htext & Hmeta).
  { case_bool_decide as Hmd.
    - apply list_elem_of_fmap in Hunit as (doc & -> & Hdoc). by exists doc.
    - exists unit. split; [exact Hunit|]. split; [reflexivity|].
      subst md. by rewrite (left_id_L ∅ (∪)). }
  exists loader, documents, doc. rewrite Htext in Hpiece.
  split; [first [reflexivity | exact Hsel]|].
  split; [first [reflexivity | exact Hload]|]. split; [exact Hdoc|].
  split; [exact Hpiece|]. split; [exact Hmeta|]. split.
  - intros key Hkey. rewrite Hmeta. by apply lookup_union_r.
  - intros ->. rewrite Hmeta. by rewrite (left_id_L ∅ (∪)).
Qed.

End IngestionExtras.

(** *** Chunk ids across assets *)

Lemma occurs_append (c : ascii) (s t : string) :
  occurs c (s +:+ String c t) = true.
Proof.
  induction s as [|a s IH].
  - change (Ascii.eqb c c || occurs c t = true). by rewrite Ascii.eqb_refl.
  - change (occurs c (String a (s +:+ String c t)) = true).
    cbn [occurs]. rewrite IH. apply orb_true_r.
Qed.

(** A decimal numeral holds no underscore. *)
Lemma pretty_N_go_no_underscore (x : N) (s : string) :
  occurs "_"%char s = false -> occurs "_"%char (pretty_N_go x s) = false.
Proof.
  revert s. induction (N.lt_wf_0 x) as [x _ IH]. intros s Hs.
  destruct (decide (x = 0)%N) as [->|Hpos]; [by rewrite pretty_N_go_0|].
  rewrite pretty_N_go_step by lia. apply IH.
  - apply N.div_lt; lia.
  - cbn [occurs]. rewrite Hs, orb_false_r.
    unfold pretty_N_char. by repeat case_match.
Qed.

Lemma pretty_nat_no_underscore (i : nat) : occurs "_"%char (pretty i) = false.
Proof.
  unfold pretty, pretty_nat, pretty, pretty_N.
  case_decide; [reflexivity|]. by apply pretty_N_go_no_underscore.
Qed.

(** An id [a_s] with no underscore in [s] splits in one way only. *)
Lemma underscore_split (a b s t : string) :
  occurs "_"%char s = false -> occurs "_"%char t = false ->
  a +:+ "_" +:+ s = b +:+ "_" +:+ t -> a = b /\ s = t.
Proof.
  intros Hs Ht. revert b. induction a as [|c a IH]; intros [|c' b] Heq.
  - change (String "_"%char s = String "_"%char t) in Heq.
    injection Heq as Hst. by split.
  - change (String "_"%char s = String c' (b +:+ String "_"%char t)) in Heq.
    injection Heq as _ Hst. rewrite Hst, occurs_append in Hs. discriminate.
  - change (String c (a +:+ String "_"%char s) = String "_"%char t) in Heq.
    injection Heq as _ Hst. rewrite <- Hst, occurs_append in Ht. discriminate.
  - change (String c (a +:+ "_" +:+ s) = String c' (b +:+ "_" +:+ t)) in Heq.
    injection Heq as Hc Hrest. destruct (IH b Hrest) as [Hab Hst].
    split; [by f_equal | exact Hst].
Qed.

(** X5.  A chunk id names its asset and its ordinal: if the same id is the
    i-th id of an ingestion under asset id a and the j-th of one under b,
    then a = b and i = j, whatever the two asset ids are.  So ingestions
    under different asset ids never write to the same id. *)
Theorem chunk_id_names_asset_and_ordinal (a b : string) (n m i j : nat) (id : string) :
  chunk_ids a n !! i = Some id ->
  chunk_ids b m !! j = Some id ->
  a = b /\ i = j.
Proof.
  unfold chunk_ids. rewrite !list_lookup_fmap.
  intros Hi Hj.
  destruct (seq 0 n !! i) as [i'|] eqn:Hseqi; [|discriminate].
  destruct (seq 0 m !! j) as [j'|] eqn:Hseqj; [|discriminate].
  apply lookup_seq in Hseqi as [-> _]. apply lookup_seq in Hseqj as [-> _].
  cbn in Hi, Hj. injection Hi as <-. injection Hj as Heq.
  apply underscore_split in Heq as [-> Hnum]; try apply pretty_nat_no_underscore.
  split; [reflexivity|]. by apply (inj pretty) in Hnum.
Qed.

(** ** Sessions and streaming *)

Section ChatExtras.
Context {env : Collaborators}.

Implicit Types (self : ChatService) (session : Session).

(** X7.  Resolving the history of an id twice is the same as resolving it
    once: the second call returns the same history and changes nothing
    more, whether or not the first call had to create the entry. *)
Theorem get_session_history_idempotent self sid :
  get_session_history sid (snd (get_session_history sid self))
  = get_session_history sid self.
Proof.
  destruct (store self !! sid) as [session|] eqn:Hsid.
  - rewrite (get_session_history_known _ _ _ Hsid). cbn [snd].
    by rewrite (get_session_history_known _ _ _ Hsid).
  - rewrite (get_session_history_unknown _ _ Hsid). cbn [snd].
    unfold get_session_history at 1. cbn [store document_service].
    rewrite lookup_insert_eq. reflexivity.
Qed.

(** X8.  Right after start-session the new id has an empty history, also
    when the id was already in use (the earlier session is replaced);
    start-session leaves the index and every other session as they were. *)
Theorem started_session_has_empty_history uuid4 chat_input self :
  let self' := snd (start_chat uuid4 chat_input self) in
  chat_history uuid4 self' = (Ok [], self') /\
  fst (get_session_history uuid4 self') = [] /\
  document_service self' = document_service self /\
  forall other, other <> uuid4 -> store self' !! other = store self !! other.
Proof.
  cbn zeta. unfold start_chat, try_except. cbn [snd].
  unfold chat_history, get_session_history. cbn [store document_service].
  rewrite lookup_insert_eq. cbn [history fmap list_fmap fst].
  split; [reflexivity|]. split; [reflexivity|]. split; [reflexivity|].
  intros other Hother. by rewrite lookup_insert_ne.
Qed.

(** X9.  An entry the history resolver created is accepted by both
    endpoints, but cannot chat: its history reads as empty, and a message
    to it gets a streaming response whose body, iterated in any state,
    yields no fragment and fails at once with status 500 for the missing
    "rag_chain" key, leaving the state as it was. *)
Theorem resolver_made_session_cannot_chat self sid msg :
  store self !! sid = None ->
  let self1 := snd (get_session_history sid self) in
  chat_history sid self1 = (Ok [], self1) /\
  exists response,
    chat_message {| MessageInput.chat_id := sid; MessageInput.message := msg |} self1
      = (Ok response, self1) /\
    forall st,
      body_iterator response st =
        ([], Some (HTTPException 500
                     ("Error generating response: " +:+ str (KeyError "rag_chain"))), st).
Proof.
  intros Hsid. rewrite (get_session_history_unknown _ _ Hsid). cbn [snd].
  unfold chat_history, chat_message.
  cbn [store document_service MessageInput.chat_id].
  rewrite lookup_insert_eq. split; [reflexivity|].
  eexists. split; [reflexivity|]. intros st. reflexivity.
Qed.

(** What iterating a pipeline run leaves behind: the state the history
    resolver produced, with at most the new exchange appended. *)
Lemma rag_chain_stream_effect chain inputs sid self chunks failure self' :
  rag_chain_stream chain inputs sid self = (chunks, failure, self') ->
  self' = snd (get_session_history sid self) \/
  (failure = None /\
   exists input output,
     Chunk.get (input_messages_key chain) inputs = Some input /\
     self' = add_messages sid [HumanMessage input; AIMessage output]
               (snd (get_session_history sid self))).
Proof.
  unfold rag_chain_stream.
  destruct (get_session_history sid self) as [hist self1]. cbn [snd].
  destruct (Chunk.get _ inputs) as [input|]; [|intros [= _ _ <-]; by left].
  destruct (retrieval_chain_stream _ _ _ _) as [run [e|]]; [intros [= _ _ <-]; by left|].
  destruct (Chunk.sum run ≫= _) as [output|]; [|intros [= _ _ <-]; by left].
  intros [= _ <- <-]. right. split; [reflexivity|]. by exists input, output.
Qed.

Lemma generate_response_effect chat_data message_input self fragments failure self' :
  generate_response chat_data message_input self = (fragments, failure, self') ->
  let sid := MessageInput.chat_id message_input in
  self' = self \/
  self' = snd (get_session_history sid self) \/
  (failure = None /\
   exists output,
     self' = add_messages sid
               [HumanMessage (MessageInput.message message_input); AIMessage output]
               (snd (get_session_history sid self))).
Proof.
  unfold generate_response, stream_generator. cbn zeta.
  destruct (rag_chain chat_data) as [chain|]; [|intros [= _ _ <-]; by left].
  destruct (rag_chain_stream _ _ _ _) as [[chunks failure0] self2] eqn:Hrun.
  intros [= _ <- <-]. right.
  apply rag_chain_stream_effect in Hrun as [-> | (-> & input & output & Hinput & ->)].
  - by left.
  - right. split; [reflexivity|]. exists output.
    unfold Chunk.get in Hinput. cbn [Chunk.input Chunk.answer] in Hinput.
    destruct (String.eqb _ "input"); [by injection Hinput as <-|].
    by destruct (String.eqb _ "answer").
Qed.

End ChatExtras.

Section StreamingExtras.
Context {env : Collaborators}.

Implicit Types (self : ChatService) (session : Session).

Lemma resolved_lookup sid self key :
  store (snd (get_session_history sid self)) !! key =
    match store self !! key with
    | Some session => Some session
    | None =>
        if decide (sid = key)
        then Some {| asset_id := None; history := []; rag_chain := None |}
        else None
    end.
Proof.
  destruct (store self !! sid) as [session|] eqn:Hsid.
  - rewrite (get_session_history_known _ _ _ Hsid). cbn [snd].
    destruct (store self !! key) eqn:Hkey; [reflexivity|].
    case_decide; [congruence | reflexivity].
  - rewrite (get_session_history_unknown _ _ Hsid). cbn [snd store].
    rewrite lookup_insert. case_decide as Hkey.
    + subst key. by rewrite Hsid.
    + by destruct (store self !! key).
Qed.

Lemma resolved_document_service sid self :
  document_service (snd (get_session_history sid self)) = document_service self.
Proof. unfold get_session_history. by destruct (store self !! sid). Qed.

Lemma paired_append (turns more : list BaseMessage) :
  paired turns = true -> paired more = true -> paired (turns ++ more) = true.
Proof.
  intros Hturns Hmore. revert turns Hturns. fix IH 1.
  intros [|[c|c|c] [|[c'|c'|c'] rest]] Hturns; try discriminate Hturns.
  - exact Hmore.
  - exact (IH rest Hturns).
Qed.

(** X10.  Iterating the body of a response, to the end or to a failure,
    never writes the index, never removes a session, never touches a
    session other than the one the message names, and changes that one at
    most by appending, after its turns, the human turn with the message
    and one assistant turn, which happens only when the run completes;
    its asset id and pipeline stay. *)
Theorem streaming_changes_one_history
    chat_data message_input self fragments failure self' session :
  generate_response chat_data message_input self = (fragments, failure, self') ->
  store self !! MessageInput.chat_id message_input = Some session ->
  document_service self' = document_service self /\
  (forall other, other <> MessageInput.chat_id message_input ->
     store self' !! other = store self !! other) /\
  dom (store self) ⊆ dom (store self') /\
  exists session' suffix,
    store self' !! MessageInput.chat_id message_input = Some session' /\
    asset_id session' = asset_id session /\
    rag_chain session' = rag_chain session /\
    history session' = history session ++ suffix /\
    (suffix = [] \/
     failure = None /\
     exists answer,
       suffix = [HumanMessage (MessageInput.message message_input); AIMessage answer]).
Proof.
  intros Hrun Hsid.
  apply generate_response_effect in Hrun. cbn zeta in Hrun.
  rewrite (get_session_history_known _ _ _ Hsid) in Hrun. cbn [snd] in Hrun.
  destruct Hrun as [-> | [-> | (-> & output & ->)]].
  - split; [reflexivity|]. split; [reflexivity|]. split; [reflexivity|].
    exists session, []. rewrite app_nil_r. repeat split; by left || done.
  - split; [reflexivity|]. split; [reflexivity|]. split; [reflexivity|].
    exists session, []. rewrite app_nil_r. repeat split; by left || done.
  - unfold add_messages. cbn [store document_service].
    split; [reflexivity|].
    split; [intros other Hother; by rewrite lookup_alter_ne|].
    split.
    { intros key. rewrite !elem_of_dom, lookup_alter_is_Some. done. }
    eexists _, _. rewrite lookup_alter_eq, Hsid. cbn.
    split; [reflexivity|]. split; [reflexivity|]. split; [reflexivity|].
    split; [reflexivity|]. right. split; [reflexivity|]. by exists output.
Qed.

Lemma generate_response_paired chat_data message_input self out self' :
  (forall sid session, store self !! sid = Some session -> paired (history session) = true) ->
  generate_response chat_data message_input self = (out, self') ->
  forall sid session, store self' !! sid = Some session -> paired (history session) = true.
Proof.
  intros Hpaired Hrun. destruct out as [fragments failure].
  assert (forall sid session,
             store (snd (get_session_history (MessageInput.chat_id message_input) self))
               !! sid = Some session -> paired (history session) = true) as Hresolved.
  { intros sid session. rewrite resolved_lookup.
    destruct (store self !! sid) as [old|] eqn:Hold.
    - intros [= <-]. by eapply Hpaired.
    - case_decide; [by intros [= <-] | discriminate]. }
  apply generate_response_effect in Hrun. cbn zeta in Hrun.
  destruct Hrun as [-> | [-> | (_ & output & ->)]]; [exact Hpaired | exact Hresolved |].
  intros sid session. unfold add_messages. cbn [store].
  rewrite lookup_alter_Some.
  intros [(_ & old & Hold & ->) | (_ & Hsame)]; [|by eapply Hresolved].
  cbn [history]. apply paired_append; [by eapply Hresolved | reflexivity].
Qed.

(** X11.  In every state the endpoints can reach, the history of every
    session consists of complete exchanges: human turn, assistant turn,
    any number of times.  A run that fails records nothing, so no human
    turn is ever left without its answer. *)
Theorem reachable_histories_paired self sid session :
  reachable self ->
  store self !! sid = Some session ->
  paired (history session) = true.
Proof.
  intros Hreach. revert sid session.
  induction Hreach as
    [ vs
    | uuid4 file_input self r ds _ IH _
    | uuid4 chat_input self r self' _ IH Hstart
    | chat_id self r self' _ IH Hhist
    | message_input self0 response self1 self out self' _ _ Hmsg _ IH Hbody ].
  - intros sid session. cbn. by rewrite lookup_empty.
  - exact IH.
  - injection Hstart as _ <-. intros sid session. cbn [store].
    rewrite lookup_insert_Some. intros [(_ & <-) | (_ & Hsame)]; [done | by eapply IH].
  - unfold chat_history in Hhist.
    destruct (store self !! chat_id); by injection Hhist as _ <-.
  - apply chat_message_Ok in Hmsg as (_ & chat_data & _ & ->). cbn in Hbody.
    by eapply generate_response_paired.
Qed.

(** X12.  Whatever ends the iteration of a response body with an error,
    the error is an HTTP error with status 500 whose detail is "Error
    generating response: " followed by the text of its cause.  The cause is
    either the missing "rag_chain" key of the session, in which case
    nothing was streamed and nothing changed, or the status-500 "Streaming
    error: ..." that [stream_generator] made of the pipeline's exception. *)
Theorem stream_failure_is_500 message_input self response self1 st fragments e st' :
  chat_message message_input self = (Ok response, self1) ->
  body_iterator response st = (fragments, Some e, st') ->
  exists cause,
    e = HTTPException 500 ("Error generating response: " +:+ str cause) /\
    ((cause = KeyError "rag_chain" /\ fragments = [] /\ st' = st) \/
     exists inner, cause = HTTPException 500 ("Streaming error: " +:+ str inner)).
Proof.
  intros Hmsg Hbody.
  apply chat_message_Ok in Hmsg as (_ & chat_data & _ & ->).
  cbn [body_iterator] in Hbody. unfold generate_response, stream_generator in Hbody.
  destruct (rag_chain chat_data) as [chain|].
  - destruct (rag_chain_stream _ _ _ _) as [[chunks [inner|]] self2];
      [|discriminate Hbody].
    injection Hbody as _ <- _.
    exists (HTTPException 500 ("Streaming error: " +:+ str inner)).
    split; [reflexivity|]. right. by exists inner.
  - injection Hbody as <- <- <-. exists (KeyError "rag_chain").
    split; [reflexivity|]. by left.
Qed.

End StreamingExtras.

Section Lifecycle.
Context {env : Collaborators}.

(** X13.  Start, ask, read back.  On a reachable service, start a
    session, post one message to it and iterate the response to the end:
    the history endpoint then returns exactly two entries, the rendered
    human turn holding the message and the rendered assistant turn, and
    the fragments that were streamed spell that assistant turn's text. *)
Theorem first_exchange_reads_back
    (self : ChatService) uuid4 chat_input msg response self1 self2 fragments :
  reachable self ->
  let started := snd (start_chat uuid4 chat_input self) in
  chat_message {| MessageInput.chat_id := uuid4; MessageInput.message := msg |} started
    = (Ok response, self1) ->
  body_iterator response self1 = (fragments, None, self2) ->
  exists answer,
    chat_history uuid4 self2
      = (Ok [message_str (HumanMessage msg); message_str (AIMessage answer)], self2) /\
    concat fragments = PyStr.encode_utf8 answer.
Proof.
  intros Hreach started Hmsg Hbody.
  assert (reachable started) as Hstarted.
  { eapply reachable_start; [exact Hreach|]. subst started. apply surjective_pairing. }
  destruct (completed_cycle _ _ _ _ _ _ (reachable_wf _ Hstarted) Hmsg Hbody)
    as (session & chunks & output & _ & Hsid & -> & Hout & ->).
  cbn [MessageInput.chat_id MessageInput.message] in *.
  subst started. unfold start_chat, try_except in Hsid. cbn [snd store] in Hsid.
  rewrite lookup_insert_eq in Hsid. injection Hsid as <-.
  exists output. split; [|by apply emitted_spell_answer].
  unfold chat_history, add_messages. cbn [store]. rewrite lookup_alter_eq.
  unfold start_chat, try_except. cbn [snd store]. rewrite lookup_insert_eq.
  reflexivity.
Qed.

End Lifecycle.

(** ** The further properties at concrete inputs *)

Lemma ingestion_failure_classified_witness :
  (snd (OsPath.splitext "missing.txt") ∈ supported_extensions) /\
  exists cause,
    upstream_failure (env := Reference.talkative) "X" Demo.missing Demo.documents
      cause Demo.documents /\
    HTTPException 400 "Error loading missing.txt" = HTTPException 400 (str cause).
Proof.
  assert (process_document (env := Reference.talkative) "X" Demo.missing Demo.documents
          = (Raise (HTTPException 400 "Error loading missing.txt"), Demo.documents)) as Hrun.
  { vm_compute. reflexivity. }
  destruct (ingestion_failure_classified (env := Reference.talkative) _ _ _ _ _ Hrun)
    as [(Hout & _) | Hupstream].
  - exfalso. apply Hout. apply (bool_decide_unpack _). vm_compute. exact I.
  - exact Hupstream.
Defined.

Lemma ingestion_success_needs_supported_suffix_witness :
  exists root ext, "paper.pdf" = root +:+ ext /\ (ext ∈ supported_extensions).
Proof.
  assert (process_document (env := Reference.talkative) "X" Demo.pdf Demo.documents
          = (Ok "X", snd (process_document (env := Reference.talkative)
                            "X" Demo.pdf Demo.documents))) as Hrun.
  { vm_compute. reflexivity. }
  exact (ingestion_success_needs_supported_suffix (env := Reference.talkative)
           _ _ _ _ _ Hrun).
Defined.

Lemma chunk_id_names_asset_and_ordinal_witness :
  chunk_ids "X" 3 !! 1%nat = Some "X_1" /\ "X" = "X" /\ 1%nat = 1%nat.
Proof.
  assert (chunk_ids "X" 3 !! 1%nat = Some "X_1") as Hid by (vm_compute; reflexivity).
  split; [exact Hid|].
  exact (chunk_id_names_asset_and_ordinal "X" "X" 3 3 1 1 "X_1" Hid Hid).
Defined.

Lemma chunks_come_from_loaded_units_witness :
  exists loader documents doc,
    select_loader "paper.pdf" (snd (OsPath.splitext "paper.pdf")) = Ok loader /\
    load (Collaborators := Reference.talkative) loader = Ok documents /\
    doc ∈ documents /\
    "Page two." ∈ split_text (Collaborators := Reference.talkative) 1000 200 (page_content doc) /\
    asset_metadata "X" "paper.pdf" ∪ {[ "source" := MStr "paper.pdf"; "page" := MInt 1 ]}
      = asset_metadata "X" "paper.pdf" ∪ metadata doc /\
    (forall key, asset_metadata "X" "paper.pdf" !! key = None ->
       (asset_metadata "X" "paper.pdf"
          ∪ {[ "source" := MStr "paper.pdf"; "page" := MInt 1 ]}) !! key
       = metadata doc !! key) /\
    (asset_metadata "X" "paper.pdf" = ∅ ->
       asset_metadata "X" "paper.pdf" ∪ {[ "source" := MStr "paper.pdf"; "page" := MInt 1 ]}
       = metadata doc).
Proof.
  refine (chunks_come_from_loaded_units (env := Reference.talkative)
            "paper.pdf" (asset_metadata "X" "paper.pdf")
            [ {| page_content := "Page one.";
                 metadata := asset_metadata "X" "paper.pdf"
                               ∪ {[ "source" := MStr "paper.pdf"; "page" := MInt 0 ]} |};
              {| page_content := "Page two.";
                 metadata := asset_metadata "X" "paper.pdf"
                               ∪ {[ "source" := MStr "paper.pdf"; "page" := MInt 1 ]} |} ]
            {| page_content := "Page two.";
               metadata := asset_metadata "X" "paper.pdf"
                             ∪ {[ "source" := MStr "paper.pdf"; "page" := MInt 1 ]} |}
            _ _).
  - vm_compute. reflexivity.
  - apply elem_of_cons. right. apply elem_of_cons. by left.
Defined.

Lemma resolver_made_session_cannot_chat_witness :
  store Demo.talkative !! "ghost" = None /\
  chat_history (env := Reference.talkative) "ghost"
    (snd (get_session_history "ghost" Demo.talkative))
  = (Ok [], snd (get_session_history "ghost" Demo.talkative)).
Proof.
  assert (store Demo.talkative !! "ghost" = None) as Hsid by (vm_compute; reflexivity).
  split; [exact Hsid|].
  exact (proj1 (resolver_made_session_cannot_chat (env := Reference.talkative)
                  Demo.talkative "ghost" "hello" Hsid)).
Defined.

Lemma streaming_changes_one_history_witness :
  document_service Demo.answered = document_service Demo.talkative /\
  (forall other, other <> "chat-1" ->
     store Demo.answered !! other = store Demo.talkative !! other) /\
  dom (store Demo.talkative) ⊆ dom (store Demo.answered).
Proof.
  destruct (streaming_changes_one_history (env := Reference.talkative)
              Demo.session Demo.question Demo.talkative
              [PyStr.encode_utf8 "The document "; PyStr.encode_utf8 "says hello."]
              None Demo.answered Demo.session)
    as (Hindex & Hothers & Hdom & _).
  - vm_compute. reflexivity.
  - vm_compute. reflexivity.
  - split; [exact Hindex|]. split; [exact Hothers | exact Hdom].
Defined.

Lemma reachable_histories_paired_witness :
  paired [ HumanMessage "what does the document say?";
           AIMessage "The document says hello." ] = true.
Proof.
  refine (reachable_histories_paired (env := Reference.talkative)
            Demo.answered "chat-1" Demo.answered_session _ _).
  - eapply (reachable_stream (env := Reference.talkative) Demo.question
              Demo.talkative (Demo.response Reference.talkative) Demo.talkative
              Demo.talkative _ Demo.answered).
    + exact demo_talkative_reachable.
    + reflexivity.
    + exact demo_talkative_reachable.
    + vm_compute. reflexivity.
  - vm_compute. reflexivity.
Defined.

Lemma stream_failure_is_500_witness :
  body_iterator (Demo.response interrupted) interrupted_service
    = ([PyStr.encode_utf8 "The doc"],
       Some (HTTPException 500
               "Error generating response: 500: Streaming error: upstream timeout"),
       interrupted_service) /\
  exists cause,
    HTTPException 500 "Error generating response: 500: Streaming error: upstream timeout"
      = HTTPException 500 ("Error generating response: " +:+ str cause) /\
    ((cause = KeyError "rag_chain" /\
      [PyStr.encode_utf8 "The doc"] = [] /\ interrupted_service = interrupted_service) \/
     exists inner, cause = HTTPException 500 ("Streaming error: " +:+ str inner)).
Proof.
  assert (body_iterator (Demo.response interrupted) interrupted_service
          = ([PyStr.encode_utf8 "The doc"],
             Some (HTTPException 500
                     "Error generating response: 500: Streaming error: upstream timeout"),
             interrupted_service)) as Hbody.
  { vm_compute. reflexivity. }
  split; [exact Hbody|].
  refine (stream_failure_is_500 (env := interrupted) Demo.question interrupted_service
            (Demo.response interrupted) interrupted_service interrupted_service
            _ _ _ _ Hbody).
  reflexivity.
Defined.

Lemma first_exchange_reads_back_witness :
  exists answer,
    chat_history (env := Reference.talkative) "chat-1" Demo.answered
      = (Ok [ Reference.role_and_content (HumanMessage "what does the document say?");
              Reference.role_and_content (AIMessage answer) ], Demo.answered) /\
    concat [PyStr.encode_utf8 "The document "; PyStr.encode_utf8 "says hello."]
      = PyStr.encode_utf8 answer.
Proof.
  refine (first_exchange_reads_back (env := Reference.talkative)
            (initial (env := Reference.talkative) Reference.seeded)
            "chat-1" {| ChatInput.asset_id := "A" |} "what does the document say?"
            (Demo.response Reference.talkative) Demo.talkative Demo.answered
            [PyStr.encode_utf8 "The document "; PyStr.encode_utf8 "says hello."]
            _ _ _).
  - apply (reachable_initial (env := Reference.talkative)).
  - reflexivity.
  - vm_compute. reflexivity.
Defined.
